(** * EmoNet emotion detector: device selection, model loading and the
      [predict] pipeline of [emotion_detector.py], with the response model of
      [server.py].

    The Python code is embedded shallowly.  Python [int] is [Z], [str] is
    [string] (the ASCII fragment), a [float32]/[float] value is the
    Standard Library's IEEE-754 specification type [spec_float], a [dict]
    with string keys is a [gmap string _], and a function that can raise
    returns a [result].  Calls into PyTorch, OpenCV's resampler, the SFD face
    detector and the EmoNet network are parameters of the development. *)

From Stdlib Require Import ZArith List Ascii String Bool Lia.
From Stdlib Require Import Sorting.Permutation Sorting.Sorted.
From Stdlib Require Import Floats.SpecFloat.
From stdpp Require Import base option list sorting strings pretty gmap fin_maps.

Local Open Scope string_scope.
Local Open Scope Z_scope.

(** ** Exceptions and fallible computations *)

Module Py.

(** The exceptions the two modules can see.  [ExternalError] stands for
    whatever a library call raises ([subprocess], [torch], [cv2.resize], the
    detector, the network); it is a different class from the ones the code
    raises or indexes into itself. *)
Inductive exn :=
  | FileNotFoundError (msg : string)
  | ValueError (msg : string)
  | IndexError
  | KeyError (key : Z + string)
  | cv2_error
  | ExternalError (what : string).

Inductive result (A : Type) :=
  | Ok (a : A)
  | Raise (e : exn).
Arguments Ok {A} a.
Arguments Raise {A} e.

#[global] Instance result_ret : MRet result := fun A a => Ok a.
#[global] Instance result_bind : MBind result := fun A B f m =>
  match m with
  | Ok a => f a
  | Raise e => Raise e
  end.

(** [try: body except Exception: return dflt] *)
Definition try_except {A} (body : result A) (dflt : A) : A :=
  match body with
  | Ok a => a
  | Raise _ => dflt
  end.

Definition is_ok {A} (r : result A) : bool :=
  match r with Ok _ => true | Raise _ => false end.

(** *** [str] methods used by the GPU query *)

Definition newline : string := String (ascii_of_nat 10) EmptyString.

(** [str.isspace] on an ASCII character: TAB, LF, VT, FF, CR, FS, GS, RS, US
    and the space. *)
Definition isspace (c : ascii) : bool :=
  let n := nat_of_ascii c in
  ((9 <=? n)%nat && (n <=? 13)%nat) || ((28 <=? n)%nat && (n <=? 32)%nat).

Fixpoint lstrip (s : list ascii) : list ascii :=
  match s with
  | c :: s' => if isspace c then lstrip s' else s
  | [] => []
  end.

(** [s.strip()] *)
Definition strip (s : string) : string :=
  string_of_list_ascii
    (rev (lstrip (rev (lstrip (list_ascii_of_string s))))).

(** [s.split(sep)] for a non-empty separator: left to right, non-overlapping
    occurrences.  [skip] counts the characters of a matched separator that are
    still to be dropped; [cur] is the current field, reversed. *)
Fixpoint split_go (sep : string) (skip : nat) (cur : list ascii) (s : string)
  : list string :=
  match s with
  | EmptyString => [string_of_list_ascii (rev cur)]
  | String c s' =>
      match skip with
      | S k => split_go sep k cur s'
      | O =>
          if String.prefix sep s
          then string_of_list_ascii (rev cur)
                 :: split_go sep (Nat.pred (String.length sep)) [] s'
          else split_go sep 0 (c :: cur) s'
      end
  end.

Definition split (sep : string) (s : string) : list string :=
  split_go sep 0 [] s.

(** [sep.join(parts)] *)
Fixpoint join (sep : string) (parts : list string) : string :=
  match parts with
  | [] => EmptyString
  | [p] => p
  | p :: ps => p ++ sep ++ join sep ps
  end.

(** [s.replace(old, new)] for non-empty [old]: every non-overlapping
    occurrence, left to right. *)
Definition replace (old new : string) (s : string) : string :=
  join new (split old s).

(** *** [int(str)] *)

(** The whitespace [int] skips around an ASCII literal is C's: TAB, LF, VT,
    FF, CR and the space.  FS, GS, RS and US, which [str.strip] removes, are
    not skipped: [int] raises on them. *)
Definition int_isspace (c : ascii) : bool :=
  let n := nat_of_ascii c in
  ((9 <=? n)%nat && (n <=? 13)%nat) || (n =? 32)%nat.

Fixpoint int_lstrip (s : list ascii) : list ascii :=
  match s with
  | c :: s' => if int_isspace c then int_lstrip s' else s
  | [] => []
  end.

Definition int_strip (s : string) : list ascii :=
  rev (int_lstrip (rev (int_lstrip (list_ascii_of_string s)))).

Definition digit_val (c : ascii) : option Z :=
  let n := nat_of_ascii c in
  if ((48 <=? n)%nat && (n <=? 57)%nat) then Some (Z.of_nat n - 48) else None.

(** Decimal digits, where single underscores may separate digits. *)
Fixpoint int_digits (acc : Z) (after_digit : bool) (s : list ascii)
  : option Z :=
  match s with
  | [] => if after_digit then Some acc else None
  | c :: s' =>
      match digit_val c with
      | Some d => int_digits (10 * acc + d) true s'
      | None =>
          if Ascii.eqb c "_"%char && after_digit
          then int_digits acc false s'
          else None
      end
  end.

(** An optional sign and decimal digits between optional whitespace.  The
    bound CPython puts on the number of digits of a literal (4300 unless
    configured otherwise) is left out: the fields of the GPU table are
    numbers of a few digits. *)
Definition int (s : string) : result Z :=
  let body := int_strip s in
  let parsed :=
    match body with
    | c :: rest =>
        if Ascii.eqb c "-"%char then Z.opp <$> int_digits 0 false rest
        else if Ascii.eqb c "+"%char then int_digits 0 false rest
        else int_digits 0 false body
    | [] => None
    end in
  match parsed with
  | Some z => Ok z
  | None => Raise (ValueError ("invalid literal for int() with base 10: " ++ s))
  end.

(** [str(n)] for an [int]. *)
Definition str_of_int (n : Z) : string := pretty n.

(** *** [list.sort(key=..., reverse=True)]

    Python's sort is stable, also with [reverse=True]: elements with equal
    keys keep their original relative order.  [insert_desc x l] puts [x], which
    preceded every element of [l] in the original list, in front of the first
    element whose key is not greater. *)
Section Sort.
Context {A : Type} (key : A -> Z).

Fixpoint insert_desc (x : A) (l : list A) : list A :=
  match l with
  | [] => [x]
  | y :: l' => if key x <? key y then y :: insert_desc x l' else x :: l
  end.

Definition sort_reverse (l : list A) : list A := foldr insert_desc [] l.

(** Descending order by key. *)
Definition desc (a b : A) : Prop := key b <= key a.
End Sort.

End Py.

Import Py.

(** ** Device selection: [_get_gpu_memory_usage] and [_select_best_gpu] *)

(** One row of the GPU table, the dict
    [{"index": .., "used": .., "total": .., "free": ..}]. *)
Module Gpu.
Record t := mk { index : Z; used : Z; total : Z; free : Z }.
End Gpu.

(** [torch.device("cpu")] and [torch.device(f"cuda:{index}")], for the
    indices [nvidia-smi] reports, which [torch.device] accepts; that
    [torch.device] refuses a negative index is not modelled. *)
Inductive device :=
  | cpu
  | cuda (index : Z).

(** [device.type] *)
Definition device_type (d : device) : string :=
  match d with cpu => "cpu" | cuda _ => "cuda" end.

(** The body of the loop over the lines of [nvidia-smi]'s output: a line
    with exactly three fields gives a row, any other line is skipped, and
    [int] may raise. *)
Definition parse_row (line : string) : result (list Gpu.t) :=
  match split ", " line with
  | [p0; p1; p2] =>
      i ← int p0;
      u ← int p1;
      t ← int p2;
      mret [Gpu.mk i u t (t - u)]
  | _ => mret []
  end.

Fixpoint parse_rows (lines : list string) : result (list Gpu.t) :=
  match lines with
  | [] => mret []
  | line :: rest =>
      row ← parse_row line;
      rows ← parse_rows rest;
      mret (row ++ rows)%list
  end.

(** The [try] block of [_get_gpu_memory_usage].  [nvidia_smi] is the outcome
    of [subprocess.run(..., check=True)]: the captured standard output, or the
    exception raised when the command is missing or exits with an error. *)
Definition _get_gpu_memory_usage_try (nvidia_smi : result string)
  : result (list Gpu.t) :=
  stdout ← nvidia_smi;
  parse_rows (split newline (strip stdout)).

(** [except Exception: return []] *)
Definition _get_gpu_memory_usage (nvidia_smi : result string) : list Gpu.t :=
  try_except (_get_gpu_memory_usage_try nvidia_smi) [].

Definition _select_best_gpu (nvidia_smi : result string) : result device :=
  let gpu_info := _get_gpu_memory_usage nvidia_smi in
  match gpu_info with
  | [] => mret cpu
  | _ :: _ =>
      match sort_reverse Gpu.free gpu_info with
      | best_gpu :: _ => mret (cuda (Gpu.index best_gpu))
      | [] => Raise IndexError
      end
  end.

(** The device table of the specification's example, as [nvidia-smi] prints
    it. *)
Definition two_gpus_stdout : string :=
  "0, 1000, 2000" ++ newline ++ "1, 500, 2000" ++ newline.

(** ** Floating-point values

    Tensor entries are [float32]; [spec_float] describes them exactly (sign,
    mantissa, exponent, signed zeros, infinities, NaN).  Only comparisons and
    the correctly rounded division are used, and both are those of
    [SpecFloat] at precision 24 and maximal exponent 128. *)

Abbreviation float := spec_float.

Definition is_nan (x : float) : bool :=
  match x with S754_nan => true | _ => false end.

(** An integer as a [float32], rounded to nearest even. *)
Definition float32_of_int (n : Z) : float := binary_normalize 24 128 n 0 false.

Definition float32_div (x y : float) : float := SFdiv 24 128 x y.

(** The literals [1.0], [-1.0] and [255.0]. *)
Definition f_one : float := S754_finite false 8388608 (-23).
Definition f_minus_one : float := S754_finite true 8388608 (-23).
Definition f_255 : float := S754_finite false 16711680 (-16).

(** [std::max(a, b)] and [std::min(a, b)] as C++ defines them. *)
Definition std_max (a b : float) : float := if SFltb a b then b else a.
Definition std_min (a b : float) : float := if SFltb b a then b else a.

(** [Tensor.clamp(min, max)] on one element: NaN is passed through,
    otherwise [min(max(x, lo), hi)]. *)
Definition clamp (x lo hi : float) : float :=
  if is_nan x then x else std_min (std_max x lo) hi.

(** [-1.0 <= x <= 1.0] as Python evaluates it. *)
Definition in_unit_range (x : float) : bool :=
  SFleb f_minus_one x && SFleb x f_one.

(** *** [ndarray.astype(np.int32)] on one element

    The fractional part is dropped (rounding towards zero).  A value with no
    [int32] counterpart (NaN, an infinity, a magnitude of 2^31 or more) gives
    the "integer indefinite" value -2^31 of the x86 conversion. *)
Definition int32_min : Z := - 2 ^ 31.
Definition int32_max : Z := 2 ^ 31 - 1.

Definition truncate (x : float) : option Z :=
  match x with
  | S754_zero _ => Some 0
  | S754_finite s m e =>
      let a := Z.shiftl (Z.pos m) e in
      Some (if s then - a else a)
  | S754_infinity _ | S754_nan => None
  end.

Definition astype_int32 (x : float) : Z :=
  match truncate x with
  | Some z => if (int32_min <=? z) && (z <=? int32_max) then z else int32_min
  | None => int32_min
  end.

(** ** Arrays

    An image is a [numpy] array of integer pixel values, two-dimensional
    (rows of pixels) or three-dimensional (rows of pixels of channels); the
    shape is kept next to the data, as [numpy] does, so that it is known also
    for an array without elements. *)
Module Np.

Inductive ndarray :=
  | Array2 (h w : nat) (px : list (list Z))
  | Array3 (h w c : nat) (px : list (list (list Z))).

(** [a.shape] *)
Definition shape (a : ndarray) : list Z :=
  match a with
  | Array2 h w _ => [Z.of_nat h; Z.of_nat w]
  | Array3 h w c _ => [Z.of_nat h; Z.of_nat w; Z.of_nat c]
  end.

(** [a.size] *)
Definition size (a : ndarray) : Z := foldr Z.mul 1 (shape a).

(** [a.shape[0]] and [a.shape[1]] as natural numbers. *)
Definition rows (a : ndarray) : nat :=
  match a with Array2 h _ _ | Array3 h _ _ _ => h end.
Definition cols (a : ndarray) : nat :=
  match a with Array2 _ w _ | Array3 _ w _ _ => w end.

(** The shape describes the data. *)
Definition wf (a : ndarray) : Prop :=
  match a with
  | Array2 h w px => length px = h /\ Forall (fun row => length row = w) px
  | Array3 h w c px =>
      length px = h
      /\ Forall (fun row => length row = w
                            /\ Forall (fun p => length p = c) row) px
  end.

(** [slice(start, stop).indices(n)]: a negative bound counts from the end,
    and both bounds are then clipped to [0, n]. *)
Definition slice_bound (n : nat) (i : Z) : nat :=
  Z.to_nat (if i <? 0 then Z.max 0 (i + Z.of_nat n) else Z.min i (Z.of_nat n)).

(** Number of elements of [l[start:stop]] for [len(l) = n]. *)
Definition slice_len (n : nat) (start stop : Z) : nat :=
  (slice_bound n stop - slice_bound n start)%nat.

(** [l[start:stop]] *)
Definition slice {A} (start stop : Z) (l : list A) : list A :=
  let n := length l in
  take (slice_len n start stop) (drop (slice_bound n start) l).

(** [image[y1:y2, x1:x2, :]]; a two-dimensional array has too few axes. *)
Definition crop (image : ndarray) (y1 y2 x1 x2 : Z) : result ndarray :=
  match image with
  | Array3 h w c px =>
      Ok (Array3 (slice_len h y1 y2) (slice_len w x1 x2) c
                 (map (slice x1 x2) (slice y1 y2 px)))
  | Array2 _ _ _ => Raise IndexError
  end.

(** [image[:, :, :3]] on a three-dimensional array. *)
Definition first3 (image : ndarray) : result ndarray :=
  match image with
  | Array3 h w c px =>
      Ok (Array3 h w (Nat.min c 3) (map (map (take 3)) px))
  | Array2 _ _ _ => Raise IndexError
  end.

End Np.

Import Np.

(** ** OpenCV colour conversions *)
Module cv2.

Definition empty (a : ndarray) : bool := Np.size a =? 0.

(** [cv2.cvtColor(image, cv2.COLOR_RGB2BGR)]: the source must be non-empty
    with 3 or 4 channels; the result has 3 channels, the first three of the
    source in reverse order. *)
Definition swap_rb (p : list Z) : list Z :=
  match p with
  | r :: g :: b :: _ => [b; g; r]
  | _ => p
  end.

Definition COLOR_RGB2BGR (a : ndarray) : result ndarray :=
  match a with
  | Array3 h w c px =>
      if negb (empty a) && ((c =? 3)%nat || (c =? 4)%nat)
      then Ok (Array3 h w 3 (map (map swap_rb) px))
      else Raise cv2_error
  | Array2 _ _ _ => Raise cv2_error
  end.

(** [cv2.cvtColor(image, cv2.COLOR_GRAY2RGB)]: the single channel is
    replicated three times. *)
Definition gray_pixel (v : Z) : list Z := [v; v; v].

Definition COLOR_GRAY2RGB (a : ndarray) : result ndarray :=
  match a with
  | Array2 h w px =>
      if negb (empty a)
      then Ok (Array3 h w 3 (map (map gray_pixel) px))
      else Raise cv2_error
  | Array3 h w c px =>
      if negb (empty a) && (c =? 1)%nat
      then Ok (Array3 h w 3 (map (map (fun p => gray_pixel (hd 0 p))) px))
      else Raise cv2_error
  end.

End cv2.

(** ** Tensors and Python values *)

(** A four-dimensional [float32] tensor (batch, channel, row, column) with the
    device it lives on. *)
Record tensor := Tensor {
  tshape : list nat;
  tdata : list (list (list (list float)));
  tdevice : device
}.

(** What the network returns for a batch of one: the row of class logits
    [output["expression"]] and the single entries of [output["valence"]] and
    [output["arousal"]]. *)
Record emonet_output := EmonetOutput {
  expression : list float;
  out_valence : float;
  out_arousal : float
}.

(** The values stored in the dict [predict] returns. *)
Inductive pyvalue :=
  | PNone
  | PBool (b : bool)
  | PInt (n : Z)
  | PFloat (x : float)
  | PStr (s : string)
  | PList (l : list Z)
  | PDict (d : gmap string float).

(** [l[i]] for a non-negative [i]. *)
Definition getitem {A} (l : list A) (i : nat) : result A :=
  match l !! i with
  | Some x => Ok x
  | None => Raise IndexError
  end.

(** [l[i] = x] for a non-negative [i]. *)
Definition setitem {A} (l : list A) (i : nat) (x : A) : result (list A) :=
  if (i <? length l)%nat then Ok (<[i := x]> l) else Raise IndexError.

(** [EmotionDetector.emotion_classes[i]] *)
Definition emotion_classes (i : Z) : result string :=
  match i with
  | 0 => Ok "Neutral"
  | 1 => Ok "Happy"
  | 2 => Ok "Sad"
  | 3 => Ok "Surprise"
  | 4 => Ok "Fear"
  | 5 => Ok "Disgust"
  | 6 => Ok "Anger"
  | 7 => Ok "Contempt"
  | _ => Raise (KeyError (inl i))
  end.

(** The two non-prediction results of [predict]. *)
Definition no_prediction (message : string) : gmap string pyvalue :=
  {[ "emotion" := PNone;
     "emotion_class" := PNone;
     "valence" := PNone;
     "arousal" := PNone;
     "emotion_probabilities" := PNone;
     "face_detected" := PBool false;
     "message" := PStr message ]}.

Definition NoFace : gmap string pyvalue :=
  no_prediction "No face detected in image".

Definition InvalidCrop : gmap string pyvalue :=
  no_prediction "Invalid face crop".

(** [r[key]] of a returned dict, [None] when [predict] raised or the key is
    missing. *)
Definition field (key : string) (r : result (gmap string pyvalue))
  : option pyvalue :=
  match r with
  | Ok d => d !! key
  | Raise _ => None
  end.

(** ** The detector object *)
Section EmotionDetector.

(** Attributes set by [__init__]. *)
Variable n_classes : Z.
Variable image_size : Z.
Variable self_device : device.

(** [self.face_detector.detect_from_image]: the boxes found, each a row
    of floats [x1, y1, x2, y2, ...]. *)
Variable detect_from_image : ndarray -> result (list (list float)).

(** [self.model(image_tensor)] *)
Variable model : tensor -> result emonet_output.

(** The resampling done by [cv2.resize] on an accepted input. *)
Variable interpolate : ndarray -> Z -> result ndarray.

(** [nn.functional.softmax(row, dim=1)] and [torch.argmax]. *)
Variable softmax : list float -> list float.
Variable argmax : list float -> Z.

(** [torch.from_numpy(image).float().permute(2, 0, 1) / 255.0] followed by
    [unsqueeze(0).to(self.device)]; [permute(2, 0, 1)] needs three axes. *)
Definition channel_plane (px : list (list (list Z))) (k : nat)
  : list (list float) :=
  map (map (fun p => float32_div (float32_of_int (p !!! k)) f_255)) px.

Definition to_tensor (image : ndarray) : result tensor :=
  match image with
  | Array3 h w c px =>
      Ok (Tensor [1%nat; c; h; w] [map (channel_plane px) (seq 0 c)]
                 self_device)
  | Array2 _ _ _ => Raise (ExternalError "permute")
  end.

(** [cv2.resize(image, (self.image_size, self.image_size))]: an empty
    source or an empty target size is rejected. *)
Definition cv2_resize (image : ndarray) : result ndarray :=
  if cv2.empty image || (image_size <=? 0) then Raise cv2_error
  else interpolate image image_size.

Definition preprocess_image (image : ndarray) : result tensor :=
  image ← match image with
          | Array2 _ _ _ => cv2.COLOR_GRAY2RGB image
          | Array3 _ _ c _ =>
              if (c =? 4)%nat then first3 image else Ok image
          end;
  image ← cv2_resize image;
  to_tensor image.

(** The dict comprehension
    [{self.emotion_classes[i]: float(emotion_probs[0, i]) for i in ...}]. *)
Fixpoint probs_dict (indices : list Z) (emotion_probs : list float)
    (acc : gmap string float) : result (gmap string float) :=
  match indices with
  | [] => Ok acc
  | i :: rest =>
      label ← emotion_classes i;
      p ← getitem emotion_probs (Z.to_nat i);
      probs_dict rest emotion_probs (<[label := p]> acc)
  end.

(** The four assignments that keep the box within the image bounds:
    [bbox[0] = max(0, bbox[0])], [bbox[1] = max(0, bbox[1])],
    [bbox[2] = min(image.shape[1], bbox[2])],
    [bbox[3] = min(image.shape[0], bbox[3])]. *)
Definition clamp_bbox (image : ndarray) (bbox : list Z) : result (list Z) :=
  b0 ← getitem bbox 0;
  bbox ← setitem bbox 0 (Z.max 0 b0);
  b1 ← getitem bbox 1;
  bbox ← setitem bbox 1 (Z.max 0 b1);
  width ← getitem (shape image) 1;
  b2 ← getitem bbox 2;
  bbox ← setitem bbox 2 (Z.min width b2);
  height ← getitem (shape image) 0;
  b3 ← getitem bbox 3;
  setitem bbox 3 (Z.min height b3).

(** [image[bbox[1]:bbox[3], bbox[0]:bbox[2], :]] *)
Definition crop_face (image : ndarray) (bbox : list Z) : result ndarray :=
  y1 ← getitem bbox 1;
  y2 ← getitem bbox 3;
  x1 ← getitem bbox 0;
  x2 ← getitem bbox 2;
  crop image y1 y2 x1 x2.

(** From preprocessing to the returned dict, for a valid crop. *)
Definition infer (face_crop : ndarray) (bbox : list Z)
  : result (gmap string pyvalue) :=
  image_tensor ← preprocess_image face_crop;
  output ← model image_tensor;
  let emotion_probs := softmax (expression output) in
  let predicted_class := argmax emotion_probs in
  let valence := clamp (out_valence output) f_minus_one f_one in
  let arousal := clamp (out_arousal output) f_minus_one f_one in
  emotion_probs_dict ← probs_dict (seqZ 0 n_classes) emotion_probs ∅;
  emotion ← emotion_classes predicted_class;
  Ok ({[ "emotion" := PStr emotion;
         "emotion_class" := PInt predicted_class;
         "valence" := PFloat valence;
         "arousal" := PFloat arousal;
         "emotion_probabilities" := PDict emotion_probs_dict;
         "face_detected" := PBool true;
         "face_bbox" := PList bbox ]} : gmap string pyvalue).

Definition predict (image : ndarray) : result (gmap string pyvalue) :=
  image_bgr ← cv2.COLOR_RGB2BGR image;
  detected_faces ← detect_from_image image_bgr;
  match detected_faces with
  | [] => Ok NoFace
  | face :: _ =>
      let bbox := map astype_int32 face in
      bbox ← clamp_bbox image bbox;
      face_crop ← crop_face image bbox;
      if Np.size face_crop =? 0 then Ok InvalidCrop
      else infer face_crop bbox
  end.

End EmotionDetector.

(** ** Model loading and construction of the detector *)
Section Startup.

(** Checkpoint tensors, the network object and the face detector object. *)
Variables weights network face_detector : Type.

(** [str(Path(__file__).parents[1])], the package directory. *)
Variable package_dir : string.

(** [Path.exists] on the file system at startup. *)
Variable path_exists : string -> bool.

(** [torch.load(path, map_location="cpu")]: the items of the checkpoint in
    order. *)
Variable torch_load : string -> result (list (string * weights)).

(** [EmoNet(n_expression=n).to(device)],
    [model.load_state_dict(state_dict, strict=False)], [model.eval()] and
    [SFDDetector(device_str)]. *)
Variable EmoNet : Z -> device -> result network.
Variable load_state_dict :
  network -> gmap string weights -> result network.
Variable eval_mode : network -> network.
Variable SFDDetector : string -> result face_detector.

Variable n_classes : Z.

(** [parents[1].joinpath("pretrained", f"emonet_{self.n_classes}.pth")] *)
Definition state_dict_path : string :=
  package_dir ++ "/pretrained/emonet_" ++ str_of_int n_classes ++ ".pth".

(** The comprehension that renames every key [k] of [state_dict.items()] to
    [k] with each occurrence of ["module."] removed: a later
    item replaces an earlier one with the same new key. *)
Definition strip_module_prefix (state_dict : list (string * weights))
  : gmap string weights :=
  foldl (fun acc kv => <[replace "module." EmptyString kv.1 := kv.2]> acc) ∅
        state_dict.

(** The last three steps of [_load_model] before the flag is set. *)
Definition bind_weights (self_device : device)
    (state_dict : list (string * weights)) : result network :=
  let state_dict := strip_module_prefix state_dict in
  model ← EmoNet n_classes self_device;
  model ← load_state_dict model state_dict;
  Ok (eval_mode model).

(** [_load_model]; the Boolean threaded through is the global
    [torch.backends.cudnn.benchmark]. *)
Definition _load_model (self_device : device) (cudnn_benchmark : bool)
  : result (network * bool) :=
  if negb (path_exists state_dict_path)
  then Raise (FileNotFoundError
                ("Model weights not found at " ++ state_dict_path))
  else
    state_dict ← torch_load state_dict_path;
    model ← bind_weights self_device state_dict;
    Ok (model,
        if String.eqb (device_type self_device) "cuda" then true
        else cudnn_benchmark).

(** [str(self.device)] *)
Definition device_str (d : device) : string :=
  match d with
  | cpu => "cpu"
  | cuda i => "cuda:" ++ str_of_int i
  end.

Definition _load_face_detector (self_device : device)
  : result face_detector :=
  SFDDetector (device_str self_device).

(** The attributes of a constructed [EmotionDetector]. *)
Record detector_state := DetectorState {
  self_n_classes : Z;
  self_image_size : Z;
  self_device : device;
  self_model : network;
  self_face_detector : face_detector
}.

(** [EmotionDetector.__init__(n_classes, image_size)] *)
Definition __init__ (image_size : Z) (nvidia_smi : result string)
    (cudnn_benchmark : bool) : result (detector_state * bool) :=
  dev ← _select_best_gpu nvidia_smi;
  '(model, cudnn_benchmark) ← _load_model dev cudnn_benchmark;
  detector ← _load_face_detector dev;
  Ok (DetectorState n_classes image_size dev model detector,
      cudnn_benchmark).

End Startup.

(** ** The response model of the HTTP layer *)

(** [class EmotionResponse(BaseModel)] *)
Record EmotionResponse := {
  emotion : option string;
  valence : option float;
  arousal : option float;
  emotion_probabilities : option (gmap string float);
  face_detected : bool;
  face_bbox : option (list Z);
  message : option string
}.

(** [result[key]] on the dict returned by [predict]. *)
Definition dict_getitem (d : gmap string pyvalue) (key : string)
  : result pyvalue :=
  match d !! key with
  | Some v => Ok v
  | None => Raise (KeyError (inr key))
  end.

(** [result.get(key)] *)
Definition dict_get (d : gmap string pyvalue) (key : string) : pyvalue :=
  default PNone (d !! key).

(** Validation of one field against its annotation, for the value types
    [predict] stores. *)
Definition validation_error {A} : result A :=
  Raise (ExternalError "ValidationError").

Definition optional_str (v : pyvalue) : result (option string) :=
  match v with PNone => Ok None | PStr s => Ok (Some s)
          | _ => validation_error end.

Definition optional_float (v : pyvalue) : result (option float) :=
  match v with PNone => Ok None | PFloat x => Ok (Some x)
          | _ => validation_error end.

Definition optional_dict (v : pyvalue) : result (option (gmap string float)) :=
  match v with PNone => Ok None | PDict d => Ok (Some d)
          | _ => validation_error end.

Definition optional_list (v : pyvalue) : result (option (list Z)) :=
  match v with PNone => Ok None | PList l => Ok (Some l)
          | _ => validation_error end.

Definition required_bool (v : pyvalue) : result bool :=
  match v with PBool b => Ok b | _ => validation_error end.

(** The [EmotionResponse(...)] call of both endpoints. *)
Definition make_response (r : gmap string pyvalue) : result EmotionResponse :=
  v_emotion ← dict_getitem r "emotion";
  v_valence ← dict_getitem r "valence";
  v_arousal ← dict_getitem r "arousal";
  v_probs ← dict_getitem r "emotion_probabilities";
  v_face ← dict_getitem r "face_detected";
  let v_bbox := dict_get r "face_bbox" in
  let v_message := dict_get r "message" in
  f_emotion ← optional_str v_emotion;
  f_valence ← optional_float v_valence;
  f_arousal ← optional_float v_arousal;
  f_probs ← optional_dict v_probs;
  f_face ← required_bool v_face;
  f_bbox ← optional_list v_bbox;
  f_message ← optional_str v_message;
  Ok {| emotion := f_emotion; valence := f_valence; arousal := f_arousal;
        emotion_probabilities := f_probs; face_detected := f_face;
        face_bbox := f_bbox; message := f_message |}.

(** ** Notions used to state the properties *)

(** The box after the four assignments. *)
Definition clamped (image : ndarray) (b0 b1 b2 b3 : Z) (tail : list Z)
  : list Z :=
  Z.max 0 b0 :: Z.max 0 b1 :: Z.min (Z.of_nat (cols image)) b2
    :: Z.min (Z.of_nat (rows image)) b3 :: tail.

(** Both values of a prediction pass the test [-1.0 <= x <= 1.0]. *)
Definition valence_arousal_in_range (r : gmap string pyvalue) : Prop :=
  exists v a,
    r !! "valence" = Some (PFloat v) /\ r !! "arousal" = Some (PFloat a)
    /\ in_unit_range v = true /\ in_unit_range a = true.

(** The RGB image obtained from a grayscale one by replicating its channel,
    and the RGB image obtained from an RGBA one by dropping the fourth
    channel. *)
Definition rgb_replicate (h w : nat) (gray : list (list Z)) : ndarray :=
  Array3 h w 3 (map (map (fun v => [v; v; v])) gray).

Definition drop_alpha (h w : nat) (rgba : list (list (list Z))) : ndarray :=
  Array3 h w 3 (map (map (take 3)) rgba).

(** The RGB image obtained from a single-channel image of shape (h, w, 1) by
    replicating its channel. *)
Definition rgb_replicate_channel (h w : nat) (single : list (list (list Z)))
  : ndarray :=
  Array3 h w 3 (map (map (fun p => (p ++ p ++ p)%list)) single).

(** ** Deterministic stand-ins for the external collaborators

    Used to run the pipeline on concrete inputs: a detector that reports a
    fixed list of boxes, a network with a fixed output, nearest-neighbour
    resampling, and the softmax and arg-max of a row of equal logits. *)
Module Mock.

Definition detector (faces : list (list float))
  : ndarray -> result (list (list float)) :=
  fun _ => Ok faces.

Definition network (output : emonet_output) : tensor -> result emonet_output :=
  fun _ => Ok output.

Definition resize_nearest (image : ndarray) (size : Z) : result ndarray :=
  let n := Z.to_nat size in
  let pick {A} (len : nat) (l : list A) : list A :=
    omap (fun i => l !! (i * len / n)%nat) (seq 0 n) in
  match image with
  | Array3 h w c px => Ok (Array3 n n c (map (pick w) (pick h px)))
  | Array2 h w px => Ok (Array2 n n (map (pick w) (pick h px)))
  end.

(** The same resampling with the shape [cv2.resize] gives its result: for
    a single-channel source, also one of shape (h, w, 1), the result is
    two-dimensional. *)
Definition cv2_like_resize (image : ndarray) (size : Z) : result ndarray :=
  match image with
  | Array3 h w 1 px => resize_nearest (Array2 h w (map (map (hd 0)) px)) size
  | _ => resize_nearest image size
  end.

Definition uniform_softmax (logits : list float) : list float :=
  replicate (length logits)
    (float32_div f_one (float32_of_int (Z.of_nat (length logits)))).

Definition first_argmax (probs : list float) : Z := 0.

(** An all-black RGB image. *)
Definition blank_image (h w : nat) : ndarray :=
  Array3 h w 3 (replicate h (replicate w [0; 0; 0])).

(** Eight equal logits. *)
Definition zero_logits : list float := replicate 8 (S754_zero false).

(** A network output with valence 3.0 and arousal -0.0, and one whose
    valence is NaN. *)
Definition finite_output : emonet_output :=
  EmonetOutput zero_logits (float32_of_int 3) (S754_zero true).
Definition nan_output : emonet_output :=
  EmonetOutput zero_logits S754_nan (S754_zero true).

Definition box (x1 y1 x2 y2 : Z) : list float :=
  [float32_of_int x1; float32_of_int y1; float32_of_int x2;
   float32_of_int y2; float32_div (float32_of_int 9) (float32_of_int 10)].

(** [predict] of a detector with 8 classes and a 4-by-4 network input,
    on the CPU. *)
Definition predict (faces : list (list float)) (output : emonet_output)
    (image : ndarray) : result (gmap string pyvalue) :=
  predict 8 4 cpu (detector faces) (network output) resize_nearest
          uniform_softmax first_argmax image.

(** Startup: a file system given by the list of its files, a checkpoint
    with one entry, a checkpoint that cannot be deserialised, and network
    and detector objects without content. *)
Definition package_dir : string := "/app/emonet".

Definition files (present : list string) : string -> bool :=
  fun path => bool_decide (path ∈ present).

Definition checkpoint : string -> result (list (string * unit)) :=
  fun _ => Ok [("module.conv1.weight", tt)].

Definition corrupt_checkpoint : string -> result (list (string * unit)) :=
  fun _ => Raise (ExternalError "UnpicklingError").

Definition new_network (n : Z) (d : device) : result unit := Ok tt.

Definition bind (m : unit) (state_dict : gmap string unit) : result unit :=
  Ok m.

Definition new_detector (device_str : string) : result unit := Ok tt.

(** [_load_model] for 8 classes on the CPU. *)
Definition _load_model (present : list string)
    (torch_load : string -> result (list (string * unit)))
  : result (unit * bool) :=
  _load_model unit unit package_dir (files present) torch_load new_network
              bind id 8 cpu false.

End Mock.

(** * The rest of the two modules *)

(** ** [predict]: the detector's list beyond its first entry *)

(** A detector that reports at most the first box of another one. *)
Definition first_only (detect : ndarray -> result (list (list float)))
  : ndarray -> result (list (list float)) :=
  fun image => faces ← detect image; Ok (take 1 faces).

(** ** Tensor entries *)

(** [0.0 <= v <= 1.0] as Python evaluates it. *)
Definition in_zero_one (v : float) : bool :=
  SFleb (S754_zero false) v && SFleb v f_one.

(** [t[n, k, r, c]] for indices within range. *)
Definition tensor_entry (t : tensor) (n k r c : nat) : option float :=
  plane ← tdata t !! n;
  rows ← plane !! k;
  row ← rows !! r;
  row !! c.

(** All entries of a tensor, in storage order. *)
Definition tensor_values (t : tensor) : list float :=
  concat (concat (concat (tdata t))).

(** The pixel values are bytes ([dtype=uint8]). *)
Definition uint8 (a : ndarray) : Prop :=
  match a with
  | Array2 _ _ px => Forall (Forall (fun v => 0 <= v <= 255)) px
  | Array3 _ _ _ px => Forall (Forall (Forall (fun v => 0 <= v <= 255))) px
  end.

(** ** [cv2.cvtColor(image, cv2.COLOR_BGR2RGB)]

    OpenCV gives [COLOR_BGR2RGB] and [COLOR_RGB2BGR] the same conversion
    code. *)
Definition cv2_COLOR_BGR2RGB (a : ndarray) : result ndarray :=
  cv2.COLOR_RGB2BGR a.

(** ** Substrings *)

(** [sub in s] *)
Fixpoint contains (sub s : string) : bool :=
  String.prefix sub s
  || match s with
     | EmptyString => false
     | String _ s' => contains sub s'
     end.

(** The new key of a checkpoint entry, [k.replace("module.", "")]. *)
Definition renamed (k : string) : string := replace "module." EmptyString k.

(** The value of the last item whose new key is [k]. *)
Definition last_renamed {W} (k : string) (state_dict : list (string * W))
  : option W :=
  snd <$> last (filter (fun kv => renamed kv.1 = k) state_dict).

(** ** [cleanup] and the detector as an object with attributes *)
Section DetectorObject.

Variables network face_detector : Type.

(** The network's forward pass and the detector's [detect_from_image]. *)
Variable forward : network -> tensor -> result emonet_output.
Variable detect : face_detector -> ndarray -> result (list (list float)).
Variable interpolate : ndarray -> Z -> result ndarray.
Variable softmax : list float -> list float.
Variable argmax : list float -> Z.

(** The attributes of the object; [del self.model] and
    [del self.face_detector] remove two of them. *)
Record detector_attrs := DetectorAttrs {
  attr_n_classes : Z;
  attr_image_size : Z;
  attr_device : device;
  attr_model : option network;
  attr_face_detector : option face_detector
}.

(** The object [__init__] leaves behind. *)
Definition attrs_of (s : detector_state network face_detector)
  : detector_attrs :=
  DetectorAttrs (self_n_classes _ _ s) (self_image_size _ _ s)
                (self_device _ _ s) (Some (self_model _ _ s))
                (Some (self_face_detector _ _ s)).

(** Reading an attribute that has been deleted. *)
Definition AttributeError {A} : result A :=
  Raise (ExternalError "AttributeError").

(** [self.predict(image)] on the object: the attributes are looked up where
    the method uses them. *)
Definition detector_predict (self : detector_attrs) (image : ndarray)
  : result (gmap string pyvalue) :=
  predict (attr_n_classes self) (attr_image_size self) (attr_device self)
          (match attr_face_detector self with
           | Some fd => detect fd
           | None => fun _ => AttributeError
           end)
          (match attr_model self with
           | Some m => forward m
           | None => fun _ => AttributeError
           end)
          interpolate softmax argmax image.

(** [cleanup]; the counter is the number of [torch.cuda.empty_cache()]
    calls made so far. *)
Definition cleanup (self : detector_attrs) (empty_cache_calls : nat)
  : detector_attrs * nat :=
  let self :=
    match attr_model self with
    | Some _ =>
        DetectorAttrs (attr_n_classes self) (attr_image_size self)
                      (attr_device self) None (attr_face_detector self)
    | None => self
    end in
  let self :=
    match attr_face_detector self with
    | Some _ =>
        DetectorAttrs (attr_n_classes self) (attr_image_size self)
                      (attr_device self) (attr_model self) None
    | None => self
    end in
  (self,
   if String.eqb (device_type (attr_device self)) "cuda"
   then S empty_cache_calls else empty_cache_calls).

End DetectorObject.

(** ** The HTTP layer of [server.py] *)

(** What an endpoint gives back: a body, or an [HTTPException]. *)
Inductive http (A : Type) :=
  | Response (body : A)
  | HTTPException (status_code : Z) (detail : string).
Arguments Response {A} body.
Arguments HTTPException {A} status_code detail.

(** What can be raised inside the [try] block of an endpoint: an exception
    of the detector and its libraries, or an [HTTPException]. *)
Inductive raised :=
  | Exn (e : exn)
  | Http (status_code : Z) (detail : string).

Inductive attempt (A : Type) :=
  | Return (a : A)
  | Throw (r : raised).
Arguments Return {A} a.
Arguments Throw {A} r.

#[global] Instance attempt_ret : MRet attempt := fun A a => Return a.
#[global] Instance attempt_bind : MBind attempt := fun A B f m =>
  match m with
  | Return a => f a
  | Throw r => Throw r
  end.

Definition lift {A} (r : result A) : attempt A :=
  match r with
  | Ok a => Return a
  | Raise e => Throw (Exn e)
  end.

Section Server.

Variables network face_detector pil_image : Type.
Variable forward : network -> tensor -> result emonet_output.
Variable detect : face_detector -> ndarray -> result (list (list float)).
Variable interpolate : ndarray -> Z -> result ndarray.
Variable softmax : list float -> list float.
Variable argmax : list float -> Z.

(** For an exception raised by a library: whether it is an instance of
    [ValueError], and [str(e)] for the exceptions that carry no message
    here. *)
Variable external_is_ValueError : string -> bool.
Variable str_other : exn -> string.

(** [base64.b64decode], [Image.open(io.BytesIO(..))], [image.mode],
    [image.convert(mode)], [np.array(image)] and
    [cv2.imdecode(np.frombuffer(contents, np.uint8), cv2.IMREAD_COLOR)]. *)
Variable b64decode : string -> result (list Byte.byte).
Variable Image_open : list Byte.byte -> result pil_image.
Variable mode : pil_image -> string.
Variable convert : pil_image -> string -> result pil_image.
Variable np_array : pil_image -> result ndarray.
Variable imdecode : list Byte.byte -> result (option ndarray).

(** [isinstance(e, ValueError)] *)
Definition isinstance_ValueError (e : exn) : bool :=
  match e with
  | ValueError _ => true
  | ExternalError what => external_is_ValueError what
  | _ => false
  end.

(** [str(e)] *)
Definition str_exn (e : exn) : string :=
  match e with
  | ValueError msg => msg
  | FileNotFoundError msg => msg
  | _ => str_other e
  end.

(** The first lines of [decode_base64_image]: a string with a comma is
    replaced by its second comma-separated field. *)
Definition strip_header (base64_string : string) : result string :=
  if contains "," base64_string
  then getitem (split "," base64_string) 1
  else Ok base64_string.

(** The [try] block of [decode_base64_image]. *)
Definition decode_base64_image_try (base64_string : string)
  : result ndarray :=
  base64_string ← strip_header base64_string;
  image_bytes ← b64decode base64_string;
  image ← Image_open image_bytes;
  image ← (if negb (String.eqb (mode image) "RGB")
           then convert image "RGB" else Ok image);
  np_array image.

Definition decode_base64_image (base64_string : string) : result ndarray :=
  match decode_base64_image_try base64_string with
  | Ok image => Ok image
  | Raise e => Raise (ValueError ("Invalid base64 image: " ++ str_exn e))
  end.

(** The two [except] clauses shared by the detection endpoints. *)
Definition handle (body : attempt EmotionResponse) : http EmotionResponse :=
  match body with
  | Return response => Response response
  | Throw (Exn e) =>
      if isinstance_ValueError e then HTTPException 400 (str_exn e)
      else HTTPException 500 "Internal server error"
  | Throw (Http _ _) => HTTPException 500 "Internal server error"
  end.

(** From the [hasattr(app.state, "detector")] test to the response; the
    state of the application is the detector object, if there is one. *)
Definition run_detector
    (app_state : option (detector_attrs network face_detector))
    (image : ndarray) : attempt EmotionResponse :=
  match app_state with
  | None => Throw (Http 503 "Model not initialized")
  | Some detector =>
      result ← lift (detector_predict network face_detector forward detect
                                      interpolate softmax argmax detector
                                      image);
      lift (make_response result)
  end.

(** [detect_emotion_from_file]: the declared content type of the upload and
    the outcome of reading it. *)
Definition detect_emotion_from_file
    (app_state : option (detector_attrs network face_detector))
    (content_type : option string) (read : result (list Byte.byte))
  : http EmotionResponse :=
  let is_image :=
    match content_type with
    | None => false
    | Some ct => negb (String.eqb ct EmptyString) && String.prefix "image/" ct
    end in
  if negb is_image then HTTPException 400 "File must be an image"
  else
    handle (contents ← lift read;
            image ← lift (imdecode contents);
            match image with
            | None => Throw (Exn (ValueError "Failed to decode image"))
            | Some image =>
                image ← lift (cv2_COLOR_BGR2RGB image);
                run_detector app_state image
            end).

(** [detect_emotion_from_base64] *)
Definition detect_emotion_from_base64
    (app_state : option (detector_attrs network face_detector))
    (request_image : string) : http EmotionResponse :=
  handle (image ← lift (decode_base64_image request_image);
          run_detector app_state image).

(** [health_check] *)
Definition health_check
    (app_state : option (detector_attrs network face_detector))
  : http (gmap string pyvalue) :=
  match app_state with
  | None => HTTPException 503 "Model not initialized"
  | Some detector =>
      Response {[ "status" := PStr "healthy";
                  "model_loaded" := PBool true;
                  "device" := PStr (device_str
                                      (attr_device _ _ detector));
                  "n_classes" := PInt (attr_n_classes _ _ detector) ]}
  end.

End Server.

(** ** [lifespan]: startup and shutdown of the application *)
Section Lifespan.

Variables weights network face_detector : Type.
Variable package_dir : string.
Variable path_exists : string -> bool.
Variable torch_load : string -> result (list (string * weights)).
Variable EmoNet : Z -> device -> result network.
Variable load_state_dict : network -> gmap string weights -> result network.
Variable eval_mode : network -> network.
Variable SFDDetector : string -> result face_detector.

(** [EmotionDetector(n_classes=8)], with the default [image_size=256]. *)
Definition EmotionDetector_8 (nvidia_smi : result string)
    (cudnn_benchmark : bool)
  : result (detector_state network face_detector * bool) :=
  __init__ weights network face_detector package_dir path_exists torch_load
           EmoNet load_state_dict eval_mode SFDDetector 8 256 nvidia_smi
           cudnn_benchmark.

(** The [finally] block: clean up the detector if [app.state] has one. *)
Definition lifespan_finally
    (app_state : option (detector_attrs network face_detector))
    (empty_cache_calls : nat)
  : option (detector_attrs network face_detector) * nat :=
  match app_state with
  | Some detector =>
      let '(detector, calls) :=
        cleanup network face_detector detector empty_cache_calls in
      (Some detector, calls)
  | None => (None, empty_cache_calls)
  end.

(** [lifespan] up to its [yield], from an application state without
    detector: the new state and counter, and the exception that ends the
    startup, if any. *)
Definition lifespan_startup (nvidia_smi : result string)
    (cudnn_benchmark : bool) (empty_cache_calls : nat)
  : option (detector_attrs network face_detector) * nat * result unit :=
  match EmotionDetector_8 nvidia_smi cudnn_benchmark with
  | Ok (detector, _) =>
      (Some (attrs_of network face_detector detector), empty_cache_calls,
       Ok tt)
  | Raise e =>
      (lifespan_finally None empty_cache_calls, Raise e)
  end.

(** [lifespan] after its [yield], when the application shuts down. *)
Definition lifespan_shutdown
    (app_state : option (detector_attrs network face_detector))
    (empty_cache_calls : nat)
  : option (detector_attrs network face_detector) * nat :=
  lifespan_finally app_state empty_cache_calls.

End Lifespan.

(** ** Stand-ins for the HTTP layer *)
Module MockServer.

(** A detector object on the CPU with 8 classes and a 4-by-4 network input,
    whose detector reports [faces] and whose network returns
    [Mock.finite_output]; both are given as the object they stand for. *)
Definition detector (faces : list (list float))
  : detector_attrs unit (list (list float)) :=
  DetectorAttrs unit (list (list float)) 8 4 cpu (Some tt) (Some faces).

Definition forward (m : unit) : tensor -> result emonet_output :=
  Mock.network Mock.finite_output.

Definition detect (faces : list (list float))
  : ndarray -> result (list (list float)) :=
  Mock.detector faces.

(** No library exception is a [ValueError]; the text of a library exception
    is its name here. *)
Definition no_ValueError (what : string) : bool := false.
Definition no_message (e : exn) : string :=
  match e with
  | ExternalError what => what
  | _ => EmptyString
  end.

(** A base64 decoder that accepts only the text ["AAAA"], an image library
    that turns every byte string into a 6-by-6 black RGB image, and an
    image decoder that fails on the empty byte string. *)
Definition b64decode (s : string) : result (list Byte.byte) :=
  if String.eqb s "AAAA" then Ok [Byte.x00; Byte.x00; Byte.x00]
  else Raise (ExternalError "Incorrect padding").

Definition Image_open (b : list Byte.byte) : result ndarray :=
  Ok (Mock.blank_image 6 6).
Definition mode (image : ndarray) : string := "RGB".
Definition convert (image : ndarray) (m : string) : result ndarray :=
  Ok image.
Definition np_array (image : ndarray) : result ndarray := Ok image.

Definition imdecode (b : list Byte.byte) : result (option ndarray) :=
  match b with
  | [] => Ok None
  | _ => Ok (Some (Mock.blank_image 6 6))
  end.

Definition detect_emotion_from_file :=
  detect_emotion_from_file unit (list (list float)) forward detect
    Mock.resize_nearest Mock.uniform_softmax Mock.first_argmax no_ValueError
    no_message imdecode.

Definition detect_emotion_from_base64 :=
  detect_emotion_from_base64 unit (list (list float)) ndarray forward detect
    Mock.resize_nearest Mock.uniform_softmax Mock.first_argmax no_ValueError
    no_message b64decode Image_open mode convert np_array.

Definition decode_base64_image :=
  decode_base64_image ndarray no_message b64decode Image_open mode convert
    np_array.

Definition lifespan_startup (present : list string) :=
  lifespan_startup unit unit unit Mock.package_dir (Mock.files present)
    Mock.checkpoint Mock.new_network Mock.bind id Mock.new_detector.

End MockServer.

(** The response for an image without face. *)
Definition no_face_response : EmotionResponse :=
  {| emotion := None; valence := None; arousal := None;
     emotion_probabilities := None; face_detected := false;
     face_bbox := None; message := Some "No face detected in image" |}.

(** The status of an answer: 200 for a body, otherwise that of the
    exception. *)
Definition status_of {A} (answer : http A) : Z :=
  match answer with
  | Response _ => 200
  | HTTPException status_code _ => status_code
  end.

(** * Properties *)

(** ** Python helpers on concrete inputs *)

Example split_rows :
  split newline (strip ("0, 1000, 2000" ++ newline ++ "1, 500, 2000" ++ newline))
  = ["0, 1000, 2000"; "1, 500, 2000"].
Proof. vm_compute. reflexivity. Qed.

Example split_empty : split newline (strip EmptyString) = [EmptyString].
Proof. reflexivity. Qed.

Example int_examples :
  int " 42 " = Ok 42 /\ int "-7" = Ok (-7) /\ int "1_000" = Ok 1000
  /\ is_ok (int "N/A") = false /\ is_ok (int EmptyString) = false
  /\ str_of_int 8 = "8".
Proof. vm_compute. repeat split; reflexivity. Qed.

Example int_separator_not_skipped :
  strip (String (ascii_of_nat 31) "10") = "10"
  /\ is_ok (int (String (ascii_of_nat 31) "10")) = false
  /\ int (String (ascii_of_nat 9) "10 ") = Ok 10.
Proof. vm_compute. repeat split; reflexivity. Qed.

Example two_gpus_rows :
  _get_gpu_memory_usage (Ok two_gpus_stdout)
  = [Gpu.mk 0 1000 2000 1000; Gpu.mk 1 500 2000 1500].
Proof. vm_compute. reflexivity. Qed.

Example tie_keeps_first :
  _select_best_gpu
    (Ok ("3, 10, 100" ++ newline ++ "1, 10, 100" ++ newline ++ "2, 50, 100"))
  = Ok (cuda 3).
Proof. vm_compute. reflexivity. Qed.

Example bad_row_loses_all :
  _select_best_gpu (Ok ("0, 10, 100" ++ newline ++ "1, [N/A], 100")) = Ok cpu.
Proof. vm_compute. reflexivity. Qed.

Example float_literals :
  SFone 24 128 = f_one /\ SFopp f_one = f_minus_one
  /\ float32_of_int 255 = f_255.
Proof. vm_compute. repeat split; reflexivity. Qed.

(** ** [list.sort(key=..., reverse=True)] is a stable descending sort *)
Section SortFacts.
Context {A : Type} (key : A -> Z).

Lemma insert_desc_perm x l : Permutation (insert_desc key x l) (x :: l).
Proof.
  induction l as [|y l IH]; simpl; [reflexivity|].
  destruct (key x <? key y); [|reflexivity].
  rewrite IH. apply perm_swap.
Qed.

Lemma sort_reverse_perm l : Permutation (sort_reverse key l) l.
Proof.
  induction l as [|x l IH]; simpl; [reflexivity|].
  rewrite insert_desc_perm. by constructor.
Qed.

Lemma insert_desc_hdrel x y l :
  key x <= key y -> HdRel (desc key) y l -> HdRel (desc key) y (insert_desc key x l).
Proof.
  intros Hxy Hl. destruct l as [|z l]; simpl.
  - by constructor.
  - destruct (key x <? key z); constructor; inversion Hl; subst; done.
Qed.

Lemma insert_desc_sorted x l :
  Sorted (desc key) l -> Sorted (desc key) (insert_desc key x l).
Proof.
  induction 1 as [|y l Hs IH Hhd]; simpl.
  - repeat constructor.
  - destruct (key x <? key y) eqn:E.
    + apply Z.ltb_lt in E. constructor; [done|].
      apply insert_desc_hdrel; [lia|done].
    + apply Z.ltb_ge in E. constructor; [by constructor|].
      by constructor.
Qed.

Lemma sort_reverse_sorted l : Sorted (desc key) (sort_reverse key l).
Proof.
  induction l as [|x l IH]; simpl; [constructor|].
  by apply insert_desc_sorted.
Qed.

(** Stability: among the elements with one key, the order is the original
    one. *)
Lemma insert_desc_filter k x l :
  Sorted (desc key) l ->
  filter (fun a => key a = k) (insert_desc key x l)
  = filter (fun a => key a = k) (x :: l).
Proof.
  induction 1 as [|y l Hs IH Hhd]; simpl; [done|].
  destruct (key x <? key y) eqn:E; [|done].
  apply Z.ltb_lt in E.
  rewrite !filter_cons. rewrite filter_cons in IH.
  destruct (decide (key y = k)) as [Hy|Hy];
    destruct (decide (key x = k)) as [Hx|Hx]; try lia.
  - rewrite IH. done.
  - rewrite IH. done.
  - rewrite IH. done.
Qed.

Lemma sort_reverse_stable k l :
  filter (fun a => key a = k) (sort_reverse key l)
  = filter (fun a => key a = k) l.
Proof.
  induction l as [|x l IH]; simpl; [done|].
  rewrite insert_desc_filter by apply sort_reverse_sorted.
  rewrite !filter_cons, IH. done.
Qed.

(** The first element after sorting is the leftmost maximum of the
    original list. *)
Lemma sort_reverse_head x l :
  exists best rest pre post,
    sort_reverse key (x :: l) = best :: rest
    /\ x :: l = (pre ++ best :: post)%list
    /\ Forall (fun d => key d < key best) pre
    /\ Forall (fun d => key d <= key best) post.
Proof.
  revert x. induction l as [|y l IH]; intros x.
  - exists x, [], [], []. simpl. repeat split; constructor.
  - destruct (IH y) as (b & r & pre & post & Hs & Hl & Hpre & Hpost).
    change (sort_reverse key (x :: y :: l))
      with (insert_desc key x (sort_reverse key (y :: l))).
    rewrite Hs. simpl. destruct (key x <? key b) eqn:E.
    + apply Z.ltb_lt in E.
      exists b, (insert_desc key x r), (x :: pre), post.
      rewrite Hl. repeat split; [|done]. by constructor.
    + apply Z.ltb_ge in E.
      exists x, (b :: r), [], (y :: l).
      repeat split; [constructor|]. rewrite Hl.
      apply Forall_app. split.
      * eapply Forall_impl; [exact Hpre|]. simpl. intros; lia.
      * constructor; [lia|].
        eapply Forall_impl; [exact Hpost|]. simpl. intros; lia.
Qed.
End SortFacts.

(** ** Device selection *)

Lemma parse_row_free line rows :
  parse_row line = Ok rows ->
  Forall (fun d => Gpu.free d = Gpu.total d - Gpu.used d) rows.
Proof.
  unfold parse_row. intros H.
  destruct (split ", " line) as [|p0 [|p1 [|p2 [|? ?]]]];
    try (injection H as <-; constructor).
  destruct (int p0) as [i|]; [|discriminate].
  destruct (int p1) as [u|]; [|discriminate].
  destruct (int p2) as [t|]; [|discriminate].
  injection H as <-. repeat constructor.
Qed.

Lemma parse_rows_free lines rows :
  parse_rows lines = Ok rows ->
  Forall (fun d => Gpu.free d = Gpu.total d - Gpu.used d) rows.
Proof.
  revert rows. induction lines as [|line rest IH]; intros rows H; simpl in H.
  - injection H as <-. constructor.
  - destruct (parse_row line) as [row|] eqn:Hrow; [|discriminate].
    destruct (parse_rows rest) as [rows'|]; [|discriminate].
    injection H as <-. apply Forall_app. split.
    + by eapply parse_row_free.
    + by apply IH.
Qed.

Lemma get_gpu_memory_usage_free nvidia_smi :
  Forall (fun d => Gpu.free d = Gpu.total d - Gpu.used d)
         (_get_gpu_memory_usage nvidia_smi).
Proof.
  unfold _get_gpu_memory_usage, _get_gpu_memory_usage_try, try_except.
  destruct nvidia_smi as [stdout|e]; simpl; [|constructor].
  destruct (parse_rows _) as [rows|] eqn:H; [|constructor].
  by eapply parse_rows_free.
Qed.

(** In a list enumerated by increasing index, whatever follows an element
    has a larger index. *)
Lemma increasing_index_after (pre post : list Gpu.t) best d :
  StronglySorted Z.lt (map Gpu.index (pre ++ best :: post)%list) ->
  In d post -> Gpu.index best < Gpu.index d.
Proof.
  rewrite map_app. simpl. intros Hs Hd.
  apply StronglySorted_app_1_r in Hs.
  apply StronglySorted_inv in Hs as [_ Hall].
  rewrite Forall_forall in Hall. apply Hall.
  apply list_elem_of_In. by apply in_map.
Qed.

(** C3. For every non-empty device list the query returns, the selected
    device is the one with the greatest free memory (total minus used), and
    among devices with that same free memory the earliest of the list, which
    has the lowest index when the list is in increasing index order; the
    list [(0, 1000, 2000), (1, 500, 2000)] selects device 1. *)
Theorem select_best_gpu_most_free
    (nvidia_smi : result string) (g : Gpu.t) (gs : list Gpu.t) :
  _get_gpu_memory_usage nvidia_smi = g :: gs ->
  (exists best pre post,
      g :: gs = (pre ++ best :: post)%list
      /\ Forall (fun d => Gpu.free d < Gpu.free best) pre
      /\ Forall (fun d => Gpu.free d <= Gpu.free best) post
      /\ Forall (fun d => Gpu.free d = Gpu.total d - Gpu.used d) (g :: gs)
      /\ _select_best_gpu nvidia_smi = Ok (cuda (Gpu.index best))
      /\ (StronglySorted Z.lt (map Gpu.index (g :: gs)) ->
          forall d, In d (g :: gs) -> Gpu.free d = Gpu.free best ->
                    Gpu.index best <= Gpu.index d))
  /\ _get_gpu_memory_usage (Ok two_gpus_stdout)
     = [Gpu.mk 0 1000 2000 1000; Gpu.mk 1 500 2000 1500]
  /\ _select_best_gpu (Ok two_gpus_stdout) = Ok (cuda 1).
Proof.
  intros Hq. split; [|split; vm_compute; reflexivity].
  destruct (sort_reverse_head Gpu.free g gs)
    as (best & rest & pre & post & Hsort & Hsplit & Hpre & Hpost).
  exists best, pre, post. repeat split; try done.
  - rewrite <- Hq. apply get_gpu_memory_usage_free.
  - unfold _select_best_gpu. rewrite Hq, Hsort. reflexivity.
  - intros Hinc d Hd Hfree. rewrite Hsplit in Hd, Hinc.
    apply in_app_or in Hd as [Hd|[->|Hd]].
    + rewrite Forall_forall in Hpre.
      apply list_elem_of_In in Hd. specialize (Hpre d Hd). simpl in Hpre. lia.
    + lia.
    + pose proof (increasing_index_after pre post best d Hinc Hd). lia.
Qed.

Lemma select_best_gpu_most_free_witness :
  exists best,
    _select_best_gpu
      (Ok ("0, 700, 1000" ++ newline ++ "1, 200, 1000" ++ newline
           ++ "2, 200, 1000"))
    = Ok (cuda (Gpu.index best))
    /\ Gpu.index best = 1.
Proof.
  destruct (select_best_gpu_most_free
              (Ok ("0, 700, 1000" ++ newline ++ "1, 200, 1000" ++ newline
                   ++ "2, 200, 1000"))
              (Gpu.mk 0 700 1000 300)
              [Gpu.mk 1 200 1000 800; Gpu.mk 2 200 1000 800]
              ltac:(vm_compute; reflexivity))
    as [(best & pre & post & Hsplit & Hpre & Hpost & Hfree & Hsel & Hlow) _].
  exists best. split; [exact Hsel|].
  assert (E : _select_best_gpu
                (Ok ("0, 700, 1000" ++ newline ++ "1, 200, 1000" ++ newline
                     ++ "2, 200, 1000")) = Ok (cuda 1))
    by (vm_compute; reflexivity).
  rewrite E in Hsel. injection Hsel as Hi. symmetry. exact Hi.
Defined.

(** C4. When the query raises or yields no device, the CPU device is
    returned and nothing is raised. *)
Theorem select_best_gpu_cpu_fallback (nvidia_smi : result string) :
  is_ok (_get_gpu_memory_usage_try nvidia_smi) = false
  \/ _get_gpu_memory_usage_try nvidia_smi = Ok [] ->
  _get_gpu_memory_usage nvidia_smi = []
  /\ _select_best_gpu nvidia_smi = Ok cpu.
Proof.
  intros H.
  assert (Hq : _get_gpu_memory_usage nvidia_smi = []).
  { unfold _get_gpu_memory_usage, try_except.
    destruct H as [H|H].
    - destruct (_get_gpu_memory_usage_try nvidia_smi); [discriminate|done].
    - by rewrite H. }
  split; [done|]. unfold _select_best_gpu. by rewrite Hq.
Qed.

Lemma select_best_gpu_cpu_fallback_witness :
  _select_best_gpu (Raise (ExternalError "nvidia-smi: command not found"))
  = Ok cpu
  /\ _select_best_gpu (Ok EmptyString) = Ok cpu
  /\ _select_best_gpu (Ok "0, [N/A], 2000") = Ok cpu.
Proof.
  split; [|split].
  - apply (select_best_gpu_cpu_fallback
             (Raise (ExternalError "nvidia-smi: command not found"))).
    left. reflexivity.
  - apply (select_best_gpu_cpu_fallback (Ok EmptyString)).
    right. vm_compute. reflexivity.
  - apply (select_best_gpu_cpu_fallback (Ok "0, [N/A], 2000")).
    left. vm_compute. reflexivity.
Defined.

(** ** Comparison and clamping of floats *)

Lemma SFcompare_antisym (x y : float) :
  SFcompare y x = CompOpp <$> SFcompare x y.
Proof.
  destruct x as [sx|sx| |sx mx ex], y as [sy|sy| |sy my ey]; simpl;
    try reflexivity;
    try (destruct sx; reflexivity); try (destruct sy; reflexivity);
    try (destruct sx, sy; reflexivity).
  pose proof (Pos.compare_cont_antisym mx my Eq) as Hm. simpl in Hm.
  destruct sx, sy; simpl; try reflexivity; f_equal;
    rewrite (Z.compare_antisym ex ey);
    destruct (ex ?= ey)%Z; simpl; try reflexivity;
    rewrite <- Hm; by rewrite ?CompOpp_involutive.
Qed.

Lemma SFcompare_not_nan (x y : float) :
  is_nan x = false -> is_nan y = false -> is_Some (SFcompare x y).
Proof.
  destruct x as [sx|sx| |sx mx ex], y as [sy|sy| |sy my ey]; simpl;
    try discriminate; intros _ _; eexists; reflexivity.
Qed.

(** When [a < b] is false and neither is NaN, [b <= a] is true. *)
Lemma SFltb_false_SFleb (a b : float) :
  is_nan a = false -> is_nan b = false ->
  SFltb a b = false -> SFleb b a = true.
Proof.
  intros Ha Hb. unfold SFltb, SFleb. rewrite (SFcompare_antisym a b).
  destruct (SFcompare_not_nan a b Ha Hb) as [c ->]. simpl.
  destruct c; simpl; try reflexivity. discriminate.
Qed.

Lemma clamp_nan : clamp S754_nan f_minus_one f_one = S754_nan.
Proof. reflexivity. Qed.

(** Clamping to [-1, 1] returns the lower bound, the upper bound, or the
    value itself when it lies between them. *)
Lemma clamp_unit_cases (x : float) :
  is_nan x = false ->
  clamp x f_minus_one f_one = f_minus_one
  \/ clamp x f_minus_one f_one = f_one
  \/ (clamp x f_minus_one f_one = x /\ in_unit_range x = true).
Proof.
  intros Hx. unfold clamp, std_min, std_max. rewrite Hx.
  destruct (SFltb x f_minus_one) eqn:Hlo.
  - left. reflexivity.
  - destruct (SFltb f_one x) eqn:Hhi.
    + right. left. reflexivity.
    + right. right. split; [reflexivity|].
      unfold in_unit_range.
      rewrite (SFltb_false_SFleb x f_minus_one), (SFltb_false_SFleb f_one x);
        done.
Qed.

Lemma clamp_unit_range (x : float) :
  is_nan x = false -> in_unit_range (clamp x f_minus_one f_one) = true.
Proof.
  intros Hx.
  destruct (clamp_unit_cases x Hx) as [-> | [-> | [-> H]]];
    [reflexivity | reflexivity | exact H].
Qed.

Lemma clamp_unit_idempotent (x : float) :
  clamp (clamp x f_minus_one f_one) f_minus_one f_one
  = clamp x f_minus_one f_one.
Proof.
  destruct (is_nan x) eqn:Hx.
  - destruct x; try discriminate. reflexivity.
  - destruct (clamp_unit_cases x Hx) as [H | [H | [H _]]];
      rewrite !H; reflexivity.
Qed.

Lemma clamp_is_nan (x : float) :
  is_nan (clamp x f_minus_one f_one) = is_nan x.
Proof.
  destruct (is_nan x) eqn:Hx.
  - destruct x; try discriminate. reflexivity.
  - destruct (clamp_unit_cases x Hx) as [-> | [-> | [-> _]]];
      try reflexivity. exact Hx.
Qed.

Example clamp_examples :
  clamp (float32_of_int 3) f_minus_one f_one = f_one
  /\ clamp (float32_of_int (-7)) f_minus_one f_one = f_minus_one
  /\ clamp (S754_infinity true) f_minus_one f_one = f_minus_one
  /\ clamp (S754_zero true) f_minus_one f_one = S754_zero true
  /\ in_unit_range S754_nan = false.
Proof. vm_compute. repeat split; reflexivity. Qed.

(** ** Arrays, clamping of the box and cropping *)

Lemma size_Array3 h w c px :
  Np.size (Array3 h w c px) = Z.of_nat h * Z.of_nat w * Z.of_nat c.
Proof. unfold Np.size. simpl. lia. Qed.

Lemma size_Array2 h w px :
  Np.size (Array2 h w px) = Z.of_nat h * Z.of_nat w.
Proof. unfold Np.size. simpl. lia. Qed.

(** The colour conversion accepts exactly the non-empty three-dimensional
    arrays with 3 or 4 channels. *)
Lemma COLOR_RGB2BGR_inv image image_bgr :
  cv2.COLOR_RGB2BGR image = Ok image_bgr ->
  exists h w c px,
    image = Array3 h w c px
    /\ (0 < h)%nat /\ (0 < w)%nat /\ (c = 3%nat \/ c = 4%nat).
Proof.
  destruct image as [h w px|h w c px]; simpl; [discriminate|].
  unfold cv2.empty. rewrite size_Array3.
  destruct (_ =? 0) eqn:Hs; simpl; [discriminate|].
  destruct ((c =? 3)%nat || (c =? 4)%nat) eqn:Hc; [|discriminate].
  intros _. exists h, w, c, px. apply Z.eqb_neq in Hs.
  apply orb_true_iff in Hc. rewrite !Nat.eqb_eq in Hc.
  split; [reflexivity|]. split; [lia|]. split; [lia|]. exact Hc.
Qed.

Lemma shape_width image :
  getitem (shape image) 1 = Ok (Z.of_nat (cols image)).
Proof. by destruct image. Qed.

Lemma shape_height image :
  getitem (shape image) 0 = Ok (Z.of_nat (rows image)).
Proof. by destruct image. Qed.

Lemma clamp_bbox_eq image b0 b1 b2 b3 tail :
  clamp_bbox image (b0 :: b1 :: b2 :: b3 :: tail)
  = Ok (clamped image b0 b1 b2 b3 tail).
Proof.
  unfold clamp_bbox. rewrite shape_width, shape_height. reflexivity.
Qed.

Lemma clamp_bbox_inv image bbox out :
  clamp_bbox image bbox = Ok out ->
  exists b0 b1 b2 b3 tail,
    bbox = b0 :: b1 :: b2 :: b3 :: tail
    /\ out = clamped image b0 b1 b2 b3 tail.
Proof.
  intros H.
  destruct bbox as [|b0 [|b1 [|b2 [|b3 tail]]]];
    try (unfold clamp_bbox in H; rewrite ?shape_width, ?shape_height in H;
         discriminate).
  rewrite clamp_bbox_eq in H. injection H as <-.
  by exists b0, b1, b2, b3, tail.
Qed.

(** A box with fewer than four coordinates makes the indexing raise. *)
Lemma clamp_bbox_short image bbox :
  (length bbox < 4)%nat -> clamp_bbox image bbox = Raise IndexError.
Proof.
  intros H.
  destruct bbox as [|b0 [|b1 [|b2 [|b3 tail]]]]; simpl in H; try lia;
    unfold clamp_bbox; rewrite ?shape_width, ?shape_height; reflexivity.
Qed.

Lemma slice_length {A} (start stop : Z) (l : list A) :
  length (slice start stop l) = slice_len (length l) start stop.
Proof.
  unfold slice, slice_len. rewrite length_take, length_drop.
  assert (slice_bound (length l) stop <= length l)%nat.
  { unfold slice_bound. destruct (stop <? 0) eqn:E; lia. }
  lia.
Qed.

(** Cropping keeps the shape and the data in step. *)
Lemma crop_wf image y1 y2 x1 x2 face_crop :
  Np.wf image -> crop image y1 y2 x1 x2 = Ok face_crop -> Np.wf face_crop.
Proof.
  destruct image as [h w px|h w c px]; [discriminate|].
  intros [Hh Hrows] H. unfold crop in H. injection H as <-.
  unfold Np.wf. split.
  - by rewrite length_map, slice_length, Hh.
  - apply Forall_forall. intros row Hrow.
    apply list_elem_of_In, in_map_iff in Hrow as (row0 & <- & Hrow0).
    assert (Hin : row0 ∈ px).
    { apply list_elem_of_In in Hrow0. unfold slice in Hrow0.
      by apply (subseteq_drop (slice_bound (length px) y1) px),
               (subseteq_take (slice_len (length px) y1 y2)). }
    rewrite Forall_forall in Hrows. destruct (Hrows _ Hin) as [Hw Hpx].
    split.
    + by rewrite slice_length, Hw.
    + unfold slice. by apply Forall_take, Forall_drop.
Qed.

(** Without wrap-around the slice is the plain interval. *)
Lemma slice_len_nonneg (n : nat) (start stop : Z) :
  0 <= start -> 0 <= stop -> stop <= Z.of_nat n ->
  Z.of_nat (slice_len n start stop) = Z.max 0 (stop - start).
Proof.
  intros Hs He Hn. unfold slice_len, slice_bound.
  destruct (start <? 0) eqn:E1; [lia|].
  destruct (stop <? 0) eqn:E2; [lia|]. lia.
Qed.

(** A negative upper bound counts from the end. *)
Lemma slice_len_negative_stop (n : nat) (start stop : Z) :
  0 <= start -> stop < 0 ->
  Z.of_nat (slice_len n start stop)
  = Z.max 0 (Z.max 0 (stop + Z.of_nat n) - Z.min start (Z.of_nat n)).
Proof.
  intros Hs He. unfold slice_len, slice_bound.
  destruct (start <? 0) eqn:E1; [lia|].
  destruct (stop <? 0) eqn:E2; lia.
Qed.

Lemma crop_face_eq h w c px x1 y1 x2 y2 tail :
  crop_face (Array3 h w c px) (x1 :: y1 :: x2 :: y2 :: tail)
  = Ok (Array3 (slice_len h y1 y2) (slice_len w x1 x2) c
               (map (slice x1 x2) (slice y1 y2 px))).
Proof. reflexivity. Qed.

(** ** The [predict] pipeline *)

Lemma NoFace_fields :
  NoFace !! "message" = Some (PStr "No face detected in image")
  /\ NoFace !! "face_detected" = Some (PBool false)
  /\ NoFace !! "emotion" = Some PNone
  /\ NoFace !! "emotion_class" = Some PNone
  /\ NoFace !! "valence" = Some PNone
  /\ NoFace !! "arousal" = Some PNone
  /\ NoFace !! "emotion_probabilities" = Some PNone
  /\ NoFace !! "face_bbox" = None.
Proof. vm_compute. repeat split; reflexivity. Qed.

Lemma InvalidCrop_fields :
  InvalidCrop !! "message" = Some (PStr "Invalid face crop")
  /\ InvalidCrop !! "face_detected" = Some (PBool false)
  /\ InvalidCrop !! "emotion" = Some PNone
  /\ InvalidCrop !! "emotion_class" = Some PNone
  /\ InvalidCrop !! "valence" = Some PNone
  /\ InvalidCrop !! "arousal" = Some PNone
  /\ InvalidCrop !! "emotion_probabilities" = Some PNone
  /\ InvalidCrop !! "face_bbox" = None.
Proof. vm_compute. repeat split; reflexivity. Qed.

(** The two results without a prediction differ in the message only. *)
Lemma no_prediction_delete_message (m1 m2 : string) :
  delete "message" (no_prediction m1) = delete "message" (no_prediction m2).
Proof.
  unfold no_prediction.
  rewrite !(delete_insert_ne _ "message") by done.
  by rewrite !delete_singleton_eq.
Qed.

Lemma InvalidCrop_NoFace_same_but_message :
  delete "message" InvalidCrop = delete "message" NoFace
  /\ InvalidCrop !! "message" <> NoFace !! "message".
Proof.
  split; [apply no_prediction_delete_message | vm_compute; discriminate].
Qed.

Lemma field_Some key (res : result (gmap string pyvalue)) v :
  field key res = Some v -> exists r, res = Ok r /\ r !! key = Some v.
Proof. destruct res as [r|e]; [|discriminate]. intros H. by exists r. Qed.

Section PredictFacts.
Context (n_classes image_size : Z) (self_device : device)
        (detect_from_image : ndarray -> result (list (list float)))
        (model : tensor -> result emonet_output)
        (interpolate : ndarray -> Z -> result ndarray)
        (softmax : list float -> list float)
        (argmax : list float -> Z).

Local Abbreviation self_infer :=
  (infer n_classes image_size self_device model interpolate softmax argmax).
Local Abbreviation self_predict :=
  (predict n_classes image_size self_device detect_from_image model
           interpolate softmax argmax).
Local Abbreviation self_preprocess_image :=
  (preprocess_image image_size self_device interpolate).

(** What a successful [infer] returns. *)
Lemma infer_inv face_crop bbox r :
  self_infer face_crop bbox = Ok r ->
  exists image_tensor output probs label,
    self_preprocess_image face_crop = Ok image_tensor
    /\ model image_tensor = Ok output
    /\ probs_dict (seqZ 0 n_classes) (softmax (expression output)) ∅
       = Ok probs
    /\ emotion_classes (argmax (softmax (expression output))) = Ok label
    /\ r = {[ "emotion" := PStr label;
              "emotion_class" := PInt (argmax (softmax (expression output)));
              "valence" := PFloat (clamp (out_valence output)
                                         f_minus_one f_one);
              "arousal" := PFloat (clamp (out_arousal output)
                                         f_minus_one f_one);
              "emotion_probabilities" := PDict probs;
              "face_detected" := PBool true;
              "face_bbox" := PList bbox ]}.
Proof.
  unfold infer. intros H.
  destruct (self_preprocess_image face_crop) as [image_tensor|] eqn:Hpre;
    [|discriminate].
  simpl in H. destruct (model image_tensor) as [output|] eqn:Hm;
    [|discriminate].
  simpl in H.
  destruct (probs_dict _ _ _) as [probs|] eqn:Hp; [|discriminate].
  simpl in H.
  destruct (emotion_classes _) as [label|] eqn:Hl; [|discriminate].
  simpl in H. injection H as <-.
  by exists image_tensor, output, probs, label.
Qed.

Lemma infer_fields face_crop bbox r :
  self_infer face_crop bbox = Ok r ->
  r !! "face_detected" = Some (PBool true)
  /\ r !! "face_bbox" = Some (PList bbox)
  /\ r !! "message" = None.
Proof.
  intros H. apply infer_inv in H as (t & o & p & l & _ & _ & _ & _ & ->).
  repeat split; by simplify_map_eq.
Qed.

(** [predict] once a first face with four coordinates has been found. *)
Lemma predict_face image image_bgr face rest x1 y1 x2 y2 tail :
  cv2.COLOR_RGB2BGR image = Ok image_bgr ->
  detect_from_image image_bgr = Ok (face :: rest) ->
  clamp_bbox image (map astype_int32 face)
    = Ok (x1 :: y1 :: x2 :: y2 :: tail) ->
  exists face_crop,
    crop_face image (x1 :: y1 :: x2 :: y2 :: tail) = Ok face_crop
    /\ rows face_crop = slice_len (rows image) y1 y2
    /\ cols face_crop = slice_len (cols image) x1 x2
    /\ (Np.size face_crop = 0 <->
        slice_len (rows image) y1 y2 = 0%nat
        \/ slice_len (cols image) x1 x2 = 0%nat)
    /\ self_predict image
       = if Np.size face_crop =? 0 then Ok InvalidCrop
         else self_infer face_crop (x1 :: y1 :: x2 :: y2 :: tail).
Proof.
  intros Hcv Hdet Hbox.
  destruct (COLOR_RGB2BGR_inv _ _ Hcv) as (h & w & c & px & -> & Hh & Hw & Hc).
  eexists. split; [apply crop_face_eq|]. split; [reflexivity|].
  split; [reflexivity|]. split.
  - rewrite size_Array3. simpl. destruct Hc; subst c; nia.
  - unfold predict. rewrite Hcv. simpl. rewrite Hdet. simpl.
    rewrite Hbox. simpl. reflexivity.
Qed.

(** Every result of [predict] is one of the three variants. *)
Lemma predict_inv image r :
  self_predict image = Ok r ->
  exists image_bgr faces,
    cv2.COLOR_RGB2BGR image = Ok image_bgr
    /\ detect_from_image image_bgr = Ok faces
    /\ ((faces = [] /\ r = NoFace)
        \/ exists face rest x1 y1 x2 y2 tail face_crop,
             faces = face :: rest
             /\ clamp_bbox image (map astype_int32 face)
                = Ok (x1 :: y1 :: x2 :: y2 :: tail)
             /\ crop_face image (x1 :: y1 :: x2 :: y2 :: tail)
                = Ok face_crop
             /\ ((Np.size face_crop = 0 /\ r = InvalidCrop)
                 \/ (Np.size face_crop <> 0
                     /\ self_infer face_crop (x1 :: y1 :: x2 :: y2 :: tail)
                        = Ok r))).
Proof.
  intros H. unfold predict in H.
  destruct (cv2.COLOR_RGB2BGR image) as [image_bgr|] eqn:Hcv;
    [|discriminate].
  simpl in H.
  destruct (detect_from_image image_bgr) as [faces|] eqn:Hdet;
    [|discriminate].
  simpl in H. exists image_bgr, faces. split; [reflexivity|].
  split; [exact Hdet|].
  destruct faces as [|face rest].
  { left. injection H as <-. done. }
  right.
  destruct (clamp_bbox image (map astype_int32 face)) as [bbox|] eqn:Hbox;
    [|discriminate].
  simpl in H.
  destruct (clamp_bbox_inv _ _ _ Hbox) as (b0 & b1 & b2 & b3 & tail & _ & ->).
  unfold clamped in *.
  destruct (crop_face image _) as [face_crop|] eqn:Hcrop; [|discriminate].
  simpl in H.
  eexists face, rest, _, _, _, _, tail, face_crop.
  split; [reflexivity|]. split; [exact Hbox|]. split; [exact Hcrop|].
  destruct (Np.size face_crop =? 0) eqn:Hs.
  - left. apply Z.eqb_eq in Hs. injection H as <-. done.
  - right. apply Z.eqb_neq in Hs. done.
Qed.

(** C5. When the face localizer returns an empty list, [predict] returns
    the NoFace result: message "No face detected in image", face_detected
    false, and emotion, emotion_class, valence, arousal and
    emotion_probabilities all None. *)
Theorem predict_no_face image image_bgr :
  cv2.COLOR_RGB2BGR image = Ok image_bgr ->
  detect_from_image image_bgr = Ok [] ->
  self_predict image = Ok NoFace
  /\ NoFace !! "message" = Some (PStr "No face detected in image")
  /\ NoFace !! "face_detected" = Some (PBool false)
  /\ NoFace !! "emotion" = Some PNone
  /\ NoFace !! "emotion_class" = Some PNone
  /\ NoFace !! "valence" = Some PNone
  /\ NoFace !! "arousal" = Some PNone
  /\ NoFace !! "emotion_probabilities" = Some PNone
  /\ NoFace !! "face_bbox" = None.
Proof.
  intros Hcv Hdet. split; [|exact NoFace_fields].
  unfold predict. rewrite Hcv. simpl. rewrite Hdet. reflexivity.
Qed.

(** An empty crop gives the InvalidCrop result. *)
Lemma predict_zero_crop image image_bgr face rest x1 y1 x2 y2 tail :
  cv2.COLOR_RGB2BGR image = Ok image_bgr ->
  detect_from_image image_bgr = Ok (face :: rest) ->
  clamp_bbox image (map astype_int32 face)
    = Ok (x1 :: y1 :: x2 :: y2 :: tail) ->
  slice_len (rows image) y1 y2 = 0%nat
  \/ slice_len (cols image) x1 x2 = 0%nat ->
  self_predict image = Ok InvalidCrop.
Proof.
  intros Hcv Hdet Hbox Hzero.
  destruct (predict_face _ _ _ _ _ _ _ _ _ Hcv Hdet Hbox)
    as (face_crop & _ & _ & _ & Hsize & ->).
  apply Hsize in Hzero. by rewrite Hzero.
Qed.

(** A prediction is returned only for a crop with rows and columns. *)
Lemma predict_prediction_crop image :
  field "face_detected" (self_predict image) = Some (PBool true) ->
  exists image_bgr face rest x1 y1 x2 y2 tail,
    cv2.COLOR_RGB2BGR image = Ok image_bgr
    /\ detect_from_image image_bgr = Ok (face :: rest)
    /\ clamp_bbox image (map astype_int32 face)
       = Ok (x1 :: y1 :: x2 :: y2 :: tail)
    /\ (0 < slice_len (rows image) y1 y2)%nat
    /\ (0 < slice_len (cols image) x1 x2)%nat
    /\ field "face_bbox" (self_predict image)
       = Some (PList (x1 :: y1 :: x2 :: y2 :: tail)).
Proof.
  intros Hfield. apply field_Some in Hfield as (r & H & Hface).
  rewrite H. simpl.
  destruct (predict_inv _ _ H) as (image_bgr & faces & Hcv & Hdet & Hr).
  destruct Hr as [[_ ->] | Hr]; [vm_compute in Hface; discriminate|].
  destruct Hr as (face & rest & x1 & y1 & x2 & y2 & tail & face_crop
                  & -> & Hbox & Hcrop & Hr).
  destruct Hr as [[_ ->] | [Hsize Hinfer]];
    [vm_compute in Hface; discriminate|].
  exists image_bgr, face, rest, x1, y1, x2, y2, tail.
  destruct (predict_face _ _ _ _ _ _ _ _ _ Hcv Hdet Hbox)
    as (face_crop' & Hcrop' & _ & _ & Hzero & _).
  rewrite Hcrop in Hcrop'. injection Hcrop' as <-.
  repeat split; try done.
  - destruct (slice_len (rows image) y1 y2); [|lia].
    exfalso. apply Hsize, Hzero. by left.
  - destruct (slice_len (cols image) x1 x2); [|lia].
    exfalso. apply Hsize, Hzero. by right.
  - by apply infer_fields in Hinfer as (_ & ? & _).
Qed.

(** C6. When the clamped coordinates of the detected box give a crop with
    no rows or no columns, [predict] returns the InvalidCrop result, with
    message "Invalid face crop" and the numeric fields None; coordinates
    with [x1 = x2] or [y1 = y2] give such a crop; and a prediction is
    returned only when the crop has at least one row and one column. *)
Theorem predict_invalid_crop image image_bgr face rest x1 y1 x2 y2 tail :
  cv2.COLOR_RGB2BGR image = Ok image_bgr ->
  detect_from_image image_bgr = Ok (face :: rest) ->
  clamp_bbox image (map astype_int32 face)
    = Ok (x1 :: y1 :: x2 :: y2 :: tail) ->
  let crop_height := slice_len (rows image) y1 y2 in
  let crop_width := slice_len (cols image) x1 x2 in
  (crop_height = 0%nat \/ crop_width = 0%nat ->
   self_predict image = Ok InvalidCrop)
  /\ (x1 = x2 \/ y1 = y2 -> crop_height = 0%nat \/ crop_width = 0%nat)
  /\ (field "face_detected" (self_predict image) = Some (PBool true) ->
      (0 < crop_height)%nat /\ (0 < crop_width)%nat)
  /\ InvalidCrop !! "message" = Some (PStr "Invalid face crop")
  /\ InvalidCrop !! "face_detected" = Some (PBool false)
  /\ InvalidCrop !! "emotion" = Some PNone
  /\ InvalidCrop !! "emotion_class" = Some PNone
  /\ InvalidCrop !! "valence" = Some PNone
  /\ InvalidCrop !! "arousal" = Some PNone
  /\ InvalidCrop !! "emotion_probabilities" = Some PNone
  /\ InvalidCrop !! "face_bbox" = None.
Proof.
  intros Hcv Hdet Hbox crop_height crop_width.
  split; [by eapply predict_zero_crop|].
  split.
  { unfold crop_height, crop_width, slice_len.
    intros [-> | ->]; [right | left]; lia. }
  split; [|exact InvalidCrop_fields].
  intros Hface.
  destruct (predict_prediction_crop _ Hface)
    as (bgr' & face' & rest' & x1' & y1' & x2' & y2' & tail'
        & Hcv' & Hdet' & Hbox' & Hh & Hw & _).
  rewrite Hcv in Hcv'. injection Hcv' as <-.
  rewrite Hdet in Hdet'. injection Hdet' as <- <-.
  rewrite Hbox in Hbox'. injection Hbox' as <- <- <- <- <-.
  done.
Qed.

(** C10. When a face is detected but the crop is empty, the result reports
    face_detected False, as the NoFace result does; the two results, and
    the responses built from them, agree on every field but the message. *)
Theorem predict_invalid_crop_face_detected
    image image_bgr face rest x1 y1 x2 y2 tail :
  cv2.COLOR_RGB2BGR image = Ok image_bgr ->
  detect_from_image image_bgr = Ok (face :: rest) ->
  clamp_bbox image (map astype_int32 face)
    = Ok (x1 :: y1 :: x2 :: y2 :: tail) ->
  slice_len (rows image) y1 y2 = 0%nat
  \/ slice_len (cols image) x1 x2 = 0%nat ->
  exists r,
    self_predict image = Ok r
    /\ r !! "face_detected" = Some (PBool false)
    /\ NoFace !! "face_detected" = Some (PBool false)
    /\ (forall key, key <> "message" -> r !! key = NoFace !! key)
    /\ r !! "message" = Some (PStr "Invalid face crop")
    /\ NoFace !! "message" = Some (PStr "No face detected in image")
    /\ exists resp resp_no_face,
         make_response r = Ok resp
         /\ make_response NoFace = Ok resp_no_face
         /\ face_detected resp = false
         /\ face_detected resp_no_face = false
         /\ emotion resp = emotion resp_no_face
         /\ valence resp = valence resp_no_face
         /\ arousal resp = arousal resp_no_face
         /\ emotion_probabilities resp = emotion_probabilities resp_no_face
         /\ face_bbox resp = face_bbox resp_no_face
         /\ message resp <> message resp_no_face.
Proof.
  intros Hcv Hdet Hbox Hzero. exists InvalidCrop.
  split; [by eapply predict_zero_crop|].
  split; [reflexivity|]. split; [reflexivity|].
  split.
  { intros key Hkey.
    destruct InvalidCrop_NoFace_same_but_message as [Hsame _].
    rewrite <- (lookup_delete_ne InvalidCrop "message" key) by done.
    rewrite <- (lookup_delete_ne NoFace "message" key) by done.
    by rewrite Hsame. }
  split; [reflexivity|]. split; [reflexivity|].
  eexists _, _. split; [vm_compute; reflexivity|].
  split; [vm_compute; reflexivity|].
  repeat split; simpl; discriminate.
Qed.

(** When the detected box has non-negative right and bottom coordinates,
    the box of a prediction lies within the image and is not empty. *)
Lemma predict_bbox_within_bounds image image_bgr face rest b0 b1 b2 b3 tail :
  cv2.COLOR_RGB2BGR image = Ok image_bgr ->
  detect_from_image image_bgr = Ok (face :: rest) ->
  map astype_int32 face = b0 :: b1 :: b2 :: b3 :: tail ->
  0 <= b2 -> 0 <= b3 ->
  field "face_detected" (self_predict image) = Some (PBool true) ->
  exists x1 y1 x2 y2,
    field "face_bbox" (self_predict image)
    = Some (PList (x1 :: y1 :: x2 :: y2 :: tail))
    /\ 0 <= x1 < x2 /\ x2 <= Z.of_nat (cols image)
    /\ 0 <= y1 < y2 /\ y2 <= Z.of_nat (rows image).
Proof.
  intros Hcv Hdet Hface Hb2 Hb3 Hdetected.
  destruct (predict_prediction_crop _ Hdetected)
    as (bgr' & face' & rest' & x1 & y1 & x2 & y2 & tail'
        & Hcv' & Hdet' & Hbox & Hh & Hw & Hbbox).
  rewrite Hcv in Hcv'. injection Hcv' as <-.
  rewrite Hdet in Hdet'. injection Hdet' as <- <-.
  rewrite Hface, clamp_bbox_eq in Hbox. unfold clamped in Hbox.
  injection Hbox as <- <- <- <- <-.
  eexists _, _, _, _. split; [exact Hbbox|].
  assert (Hw' := slice_len_nonneg (cols image) (Z.max 0 b0)
                   (Z.min (Z.of_nat (cols image)) b2)).
  assert (Hh' := slice_len_nonneg (rows image) (Z.max 0 b1)
                   (Z.min (Z.of_nat (rows image)) b3)).
  lia.
Qed.

(** C7 (amended). In a prediction, valence and arousal are the clamped
    network outputs: each lies within [-1, 1] unless the network output is
    NaN, which clamping passes through; and clamping is idempotent. *)
Theorem predict_valence_arousal_clamped image :
  field "face_detected" (self_predict image) = Some (PBool true) ->
  (exists image_tensor output v a,
      model image_tensor = Ok output
      /\ v = clamp (out_valence output) f_minus_one f_one
      /\ a = clamp (out_arousal output) f_minus_one f_one
      /\ field "valence" (self_predict image) = Some (PFloat v)
      /\ field "arousal" (self_predict image) = Some (PFloat a)
      /\ (if is_nan (out_valence output) then v = S754_nan
          else in_unit_range v = true)
      /\ (if is_nan (out_arousal output) then a = S754_nan
          else in_unit_range a = true))
  /\ (forall x, is_nan x = false ->
                in_unit_range (clamp x f_minus_one f_one) = true)
  /\ (forall x, clamp (clamp x f_minus_one f_one) f_minus_one f_one
                = clamp x f_minus_one f_one).
Proof.
  intros Hfield. apply field_Some in Hfield as (r & Hr & Hface).
  split; [|split; [exact clamp_unit_range | exact clamp_unit_idempotent]].
  rewrite Hr. simpl.
  destruct (predict_inv _ _ Hr) as (image_bgr & faces & Hcv & Hdet & Hcase).
  destruct Hcase as [[_ ->] | Hcase]; [vm_compute in Hface; discriminate|].
  destruct Hcase as (face & rest & x1 & y1 & x2 & y2 & tail & face_crop
                     & -> & Hbox & Hcrop & Hcase).
  destruct Hcase as [[_ ->] | [_ Hinfer]];
    [vm_compute in Hface; discriminate|].
  apply infer_inv in Hinfer
    as (image_tensor & output & probs & label & _ & Hm & _ & _ & ->).
  eexists image_tensor, output, _, _.
  split; [exact Hm|]. split; [reflexivity|]. split; [reflexivity|].
  split; [by simplify_map_eq|]. split; [by simplify_map_eq|].
  split.
  - destruct (is_nan (out_valence output)) eqn:E.
    + destruct (out_valence output); try discriminate. reflexivity.
    + by apply clamp_unit_range.
  - destruct (is_nan (out_arousal output)) eqn:E.
    + destruct (out_arousal output); try discriminate. reflexivity.
    + by apply clamp_unit_range.
Qed.

End PredictFacts.

(** ** The pipeline on concrete inputs *)

Lemma predict_no_face_witness :
  Mock.predict [] Mock.finite_output (Mock.blank_image 2 2) = Ok NoFace.
Proof.
  refine (proj1 (predict_no_face 8 4 cpu (Mock.detector [])
                   (Mock.network Mock.finite_output) Mock.resize_nearest
                   Mock.uniform_softmax Mock.first_argmax
                   (Mock.blank_image 2 2) _ _ _)).
  - vm_compute. reflexivity.
  - reflexivity.
Defined.

(** A box beyond the right edge of a 6-by-6 image: columns [8:6]. *)
Lemma predict_invalid_crop_witness :
  Mock.predict [Mock.box 8 0 9 5] Mock.finite_output (Mock.blank_image 6 6)
  = Ok InvalidCrop.
Proof.
  refine (proj1 (predict_invalid_crop 8 4 cpu
                   (Mock.detector [Mock.box 8 0 9 5])
                   (Mock.network Mock.finite_output) Mock.resize_nearest
                   Mock.uniform_softmax Mock.first_argmax
                   (Mock.blank_image 6 6) _ (Mock.box 8 0 9 5) []
                   8 0 6 5 [0] _ _ _) _).
  - vm_compute. reflexivity.
  - reflexivity.
  - vm_compute. reflexivity.
  - right. vm_compute. reflexivity.
Defined.

Lemma predict_invalid_crop_face_detected_witness :
  exists r,
    Mock.predict [Mock.box 8 0 9 5] Mock.finite_output (Mock.blank_image 6 6)
    = Ok r
    /\ r !! "face_detected" = Some (PBool false).
Proof.
  destruct (predict_invalid_crop_face_detected 8 4 cpu
              (Mock.detector [Mock.box 8 0 9 5])
              (Mock.network Mock.finite_output) Mock.resize_nearest
              Mock.uniform_softmax Mock.first_argmax
              (Mock.blank_image 6 6)
              (Array3 6 6 3 (replicate 6 (replicate 6 [0; 0; 0])))
              (Mock.box 8 0 9 5) [] 8 0 6 5 [0]
              ltac:(vm_compute; reflexivity) ltac:(reflexivity)
              ltac:(vm_compute; reflexivity)
              ltac:(right; vm_compute; reflexivity))
    as (r & Hr & Hface & _).
  exists r. split; [exact Hr | exact Hface].
Defined.

(** C1. A detected box [-20, 0, -5, 50] on a 100-by-100 image: the right
    coordinate stays negative, the slice [0:-5] wraps around to the 95
    leftmost columns, the crop is not empty, and the prediction carries the
    box [0, 0, -5, 50] with [x2 < x1]. *)
Theorem predict_bbox_negative_x2 :
  let r := Mock.predict [Mock.box (-20) 0 (-5) 50] Mock.finite_output
                        (Mock.blank_image 100 100) in
  field "face_detected" r = Some (PBool true)
  /\ field "face_bbox" r = Some (PList [0; 0; -5; 50; 0])
  /\ clamp_bbox (Mock.blank_image 100 100)
                (map astype_int32 (Mock.box (-20) 0 (-5) 50))
     = Ok [0; 0; -5; 50; 0]
  /\ slice_len 100 0 (-5) = 95%nat
  /\ ~ (0 <= 0 < -5).
Proof.
  repeat split; try (vm_compute; reflexivity). lia.
Qed.

Lemma predict_valence_arousal_clamped_witness :
  field "valence"
        (Mock.predict [Mock.box 1 1 5 5] Mock.finite_output
                      (Mock.blank_image 6 6))
  = Some (PFloat f_one)
  /\ in_unit_range f_one = true.
Proof.
  destruct (predict_valence_arousal_clamped 8 4 cpu
              (Mock.detector [Mock.box 1 1 5 5])
              (Mock.network Mock.finite_output) Mock.resize_nearest
              Mock.uniform_softmax Mock.first_argmax
              (Mock.blank_image 6 6) ltac:(vm_compute; reflexivity))
    as [(t & o & v & a & Hm & -> & -> & Hv & Ha & Hrange & _) _].
  injection Hm as <-. split; [exact Hv | exact Hrange].
Defined.

(** C7 as stated fails when the network returns NaN: the valence of the
    prediction is NaN, which is not within [-1, 1]. *)
Lemma predict_valence_nan :
  let r := Mock.predict [Mock.box 1 1 5 5] Mock.nan_output
                        (Mock.blank_image 6 6) in
  field "face_detected" r = Some (PBool true)
  /\ field "valence" r = Some (PFloat S754_nan)
  /\ in_unit_range S754_nan = false
  /\ ~ (exists d, r = Ok d /\ valence_arousal_in_range d).
Proof.
  split; [vm_compute; reflexivity|].
  split; [vm_compute; reflexivity|].
  split; [reflexivity|].
  intros (d & Hd & v & a & Hv & _ & Hrange & _).
  assert (Hnan : field "valence"
                   (Mock.predict [Mock.box 1 1 5 5] Mock.nan_output
                                 (Mock.blank_image 6 6))
                 = Some (PFloat S754_nan)) by (vm_compute; reflexivity).
  rewrite Hd in Hnan. simpl in Hnan. rewrite Hv in Hnan.
  injection Hnan as ->. discriminate.
Qed.

(** ** The probabilities mapping *)

Lemma probs_dict_labels indices probs acc d :
  probs_dict indices probs acc = Ok d ->
  Forall (fun i => is_ok (emotion_classes i) = true) indices.
Proof.
  revert acc. induction indices as [|i rest IH]; intros acc H; [constructor|].
  simpl in H. destruct (emotion_classes i) as [label|] eqn:Hl; [|discriminate].
  simpl in H. destruct (getitem probs (Z.to_nat i)) as [p|]; [|discriminate].
  simpl in H. constructor; [by rewrite Hl|]. by eapply IH.
Qed.

(** The label table has eight entries, so at most eight classes can be
    listed. *)
Lemma probs_dict_at_most_8 n probs d :
  probs_dict (seqZ 0 n) probs ∅ = Ok d -> n <= 8.
Proof.
  intros H. apply probs_dict_labels in H.
  destruct (decide (n <= 8)) as [|Hn]; [done|]. exfalso.
  rewrite Forall_forall in H.
  specialize (H 8 ltac:(apply elem_of_seqZ; lia)). discriminate.
Qed.

(** Distinct classes have distinct labels. *)
Lemma emotion_classes_inj i j label :
  emotion_classes i = Ok label -> emotion_classes j = Ok label -> i = j.
Proof.
  intros Hi Hj.
  assert (Hri : 0 <= i <= 7).
  { destruct i as [|p|p]; [lia| |discriminate].
    do 3 (destruct p as [p|p|]; try discriminate; try lia). }
  assert (Hrj : 0 <= j <= 7).
  { destruct j as [|p|p]; [lia| |discriminate].
    do 3 (destruct p as [p|p|]; try discriminate; try lia). }
  assert (Hci : i = 0 \/ i = 1 \/ i = 2 \/ i = 3 \/ i = 4 \/ i = 5
                \/ i = 6 \/ i = 7) by lia.
  assert (Hcj : j = 0 \/ j = 1 \/ j = 2 \/ j = 3 \/ j = 4 \/ j = 5
                \/ j = 6 \/ j = 7) by lia.
  clear Hri Hrj.
  repeat (destruct Hci as [-> | Hci]); try subst i;
    simpl in Hi; injection Hi as <-;
    repeat (destruct Hcj as [-> | Hcj]); try subst j;
    simpl in Hj; first [reflexivity | discriminate].
Qed.

(** The mapping built from distinct indices: the label of each index maps
    to the probability at that index, the other labels are as before. *)
Lemma probs_dict_lookup indices probs acc d :
  probs_dict indices probs acc = Ok d ->
  NoDup indices ->
  (forall i label, i ∈ indices -> emotion_classes i = Ok label ->
                   d !! label = probs !! Z.to_nat i
                   /\ is_Some (probs !! Z.to_nat i))
  /\ (forall label,
        (forall i, i ∈ indices -> emotion_classes i <> Ok label) ->
        d !! label = acc !! label).
Proof.
  revert acc. induction indices as [|i rest IH]; intros acc H Hnd.
  { injection H as <-. split; [|done]. intros i label Hi.
    by apply elem_of_nil in Hi. }
  simpl in H. destruct (emotion_classes i) as [label_i|] eqn:Hl; [|discriminate].
  simpl in H. unfold getitem in H.
  destruct (probs !! Z.to_nat i) as [p|] eqn:Hp; [|discriminate].
  simpl in H. apply NoDup_cons in Hnd as [Hi Hnd].
  destruct (IH _ H Hnd) as [IH1 IH2]. split.
  - intros j label Hj Hlabel. apply elem_of_cons in Hj as [-> | Hj].
    + rewrite Hl in Hlabel. injection Hlabel as <-. rewrite Hp.
      split; [|by eexists]. rewrite IH2.
      * by rewrite lookup_insert_eq.
      * intros k Hk Hkl. apply Hi.
        by rewrite (emotion_classes_inj i k label_i Hl Hkl).
    + by apply IH1.
  - intros label Hfresh. rewrite IH2.
    + rewrite lookup_insert_ne; [done|]. intros <-.
      apply (Hfresh i); [by left | done].
    + intros k Hk. apply Hfresh. by right.
Qed.

Lemma probs_dict_size indices probs acc d :
  probs_dict indices probs acc = Ok d ->
  NoDup indices ->
  (forall i label, i ∈ indices -> emotion_classes i = Ok label ->
                   acc !! label = None) ->
  base.size d = (length indices + base.size acc)%nat.
Proof.
  revert acc. induction indices as [|i rest IH]; intros acc H Hnd Hfresh.
  { by injection H as <-. }
  simpl in H. destruct (emotion_classes i) as [label_i|] eqn:Hl; [|discriminate].
  simpl in H.
  destruct (getitem probs (Z.to_nat i)) as [p|]; [|discriminate].
  simpl in H. apply NoDup_cons in Hnd as [Hi Hnd].
  rewrite (IH _ H Hnd).
  - rewrite map_size_insert_None; [simpl; lia|].
    apply (Hfresh i); [by left | done].
  - intros k label Hk Hkl. rewrite lookup_insert_ne.
    + apply (Hfresh k); [by right | done].
    + intros <-. apply Hi.
      by rewrite (emotion_classes_inj i k label_i Hl Hkl).
Qed.

(** The mapping of a prediction has one entry per class: the label of class
    [i] maps to the [i]-th probability of the row. *)
Lemma probs_dict_entries n probs d :
  probs_dict (seqZ 0 n) probs ∅ = Ok d ->
  base.size d = Z.to_nat n
  /\ forall i label, 0 <= i < n -> emotion_classes i = Ok label ->
                     d !! label = probs !! Z.to_nat i
                     /\ is_Some (probs !! Z.to_nat i).
Proof.
  intros H. split.
  - rewrite (probs_dict_size _ _ _ _ H (NoDup_seqZ 0 n)).
    + rewrite length_seqZ, map_size_empty. lia.
    + intros. apply lookup_empty.
  - intros i label Hi Hlabel.
    apply (probs_dict_lookup _ _ _ _ H (NoDup_seqZ 0 n)); [|done].
    apply elem_of_seqZ. lia.
Qed.

Section ProbabilityFacts.
Context (n_classes image_size : Z) (self_device : device)
        (detect_from_image : ndarray -> result (list (list float)))
        (model : tensor -> result emonet_output)
        (interpolate : ndarray -> Z -> result ndarray)
        (softmax : list float -> list float)
        (argmax : list float -> Z).

Local Abbreviation self_predict :=
  (predict n_classes image_size self_device detect_from_image model
           interpolate softmax argmax).

(** X22. In a prediction, the class index is the arg-max of the softmax row,
    and the mapping has [n_classes] entries: the label of each class maps
    to the probability of that class in the row. *)
Lemma predict_probabilities_entries image :
  field "face_detected" (self_predict image) = Some (PBool true) ->
  exists image_tensor output probs,
    model image_tensor = Ok output
    /\ field "emotion_class" (self_predict image)
       = Some (PInt (argmax (softmax (expression output))))
    /\ field "emotion_probabilities" (self_predict image) = Some (PDict probs)
    /\ n_classes <= 8
    /\ base.size probs = Z.to_nat n_classes
    /\ (forall i label,
           0 <= i < n_classes -> emotion_classes i = Ok label ->
           probs !! label = softmax (expression output) !! Z.to_nat i
           /\ is_Some (softmax (expression output) !! Z.to_nat i)).
Proof.
  intros Hfield. apply field_Some in Hfield as (r & Hr & Hface).
  rewrite Hr. simpl.
  destruct (predict_inv _ _ _ _ _ _ _ _ _ _ Hr)
    as (image_bgr & faces & Hcv & Hdet & Hcase).
  destruct Hcase as [[_ ->] | Hcase]; [vm_compute in Hface; discriminate|].
  destruct Hcase as (face & rest & x1 & y1 & x2 & y2 & tail & face_crop
                     & -> & Hbox & Hcrop & Hcase).
  destruct Hcase as [[_ ->] | [_ Hinfer]];
    [vm_compute in Hface; discriminate|].
  apply infer_inv in Hinfer
    as (image_tensor & output & probs & label & _ & Hm & Hp & _ & ->).
  exists image_tensor, output, probs.
  split; [exact Hm|]. split; [by simplify_map_eq|].
  split; [by simplify_map_eq|].
  split; [by eapply probs_dict_at_most_8|].
  by apply probs_dict_entries.
Qed.

End ProbabilityFacts.

Example predict_probabilities_uniform :
  field "emotion_class"
        (Mock.predict [Mock.box 1 1 5 5] Mock.finite_output
                      (Mock.blank_image 6 6))
  = Some (PInt 0)
  /\ match field "emotion_probabilities"
                 (Mock.predict [Mock.box 1 1 5 5] Mock.finite_output
                               (Mock.blank_image 6 6)) with
     | Some (PDict probs) =>
         base.size probs = 8%nat
         /\ probs !! "Neutral" = Some (S754_finite false 8388608 (-26))
         /\ probs !! "Contempt" = Some (S754_finite false 8388608 (-26))
     | _ => False
     end.
Proof. vm_compute. repeat split; reflexivity. Qed.

(** ** Preprocessing *)
Section PreprocessFacts.
Context (image_size : Z) (self_device : device)
        (interpolate : ndarray -> Z -> result ndarray).

Local Abbreviation self_preprocess_image :=
  (preprocess_image image_size self_device interpolate).

Lemma empty_gray_rgb h w gray :
  cv2.empty (rgb_replicate h w gray) = cv2.empty (Array2 h w gray).
Proof.
  unfold cv2.empty, rgb_replicate. rewrite size_Array3, size_Array2.
  destruct (Z.of_nat h * Z.of_nat w =? 0) eqn:E.
  - apply Z.eqb_eq in E. apply Z.eqb_eq. lia.
  - apply Z.eqb_neq in E. apply Z.eqb_neq. lia.
Qed.

(** C8, amended. Preprocessing a grayscale crop that is a two-dimensional
    array gives the same result as preprocessing the RGB image made by
    replicating its channel, and preprocessing a 4-channel crop gives the
    same result as preprocessing the RGB image made by dropping its fourth
    channel.  A single-channel crop of shape (h, w, 1) is not replicated: it
    is resized as it is and the resized array converted, which raises when
    that array is two-dimensional. *)
Theorem preprocess_image_gray_rgba h w gray rgba single :
  self_preprocess_image (Array2 h w gray)
  = self_preprocess_image (rgb_replicate h w gray)
  /\ self_preprocess_image (Array3 h w 4 rgba)
     = self_preprocess_image (drop_alpha h w rgba)
  /\ self_preprocess_image (Array3 h w 1 single)
     = match cv2_resize image_size interpolate (Array3 h w 1 single) with
       | Ok (Array2 _ _ _) => Raise (ExternalError "permute")
       | Ok resized => to_tensor self_device resized
       | Raise e => Raise e
       end.
Proof.
  split; [|split].
  - unfold preprocess_image, cv2.COLOR_GRAY2RGB.
    change (Array3 h w 3 (map (map cv2.gray_pixel) gray))
      with (rgb_replicate h w gray).
    destruct (cv2.empty (Array2 h w gray)) eqn:E; simpl.
    + unfold cv2_resize. by rewrite empty_gray_rgb, E.
    + reflexivity.
  - reflexivity.
  - unfold preprocess_image. simpl.
    destruct (cv2_resize image_size interpolate (Array3 h w 1 single))
      as [[? ? ?|? ? ? ?]|]; reflexivity.
Qed.

End PreprocessFacts.

Example preprocess_gray_pixels :
  preprocess_image 2 cpu Mock.resize_nearest (Array2 1 2 [[255; 0]])
  = Ok (Tensor [1; 3; 2; 2]%nat
          [[ [[f_one; S754_zero false]; [f_one; S754_zero false]];
             [[f_one; S754_zero false]; [f_one; S754_zero false]];
             [[f_one; S754_zero false]; [f_one; S754_zero false]] ]]
          cpu).
Proof. vm_compute. reflexivity. Qed.

Example preprocess_rgba_pixel :
  preprocess_image 1 cpu Mock.resize_nearest (Array3 1 1 4 [[[255; 0; 255; 77]]])
  = Ok (Tensor [1; 3; 1; 1]%nat
          [[ [[f_one]]; [[S754_zero false]]; [[f_one]] ]] cpu).
Proof. vm_compute. reflexivity. Qed.

(** C8 as stated fails for a single-channel crop of shape (1, 1, 1).  The
    crop is not replicated; [cv2.resize] returns a two-dimensional array for
    it, so [permute(2, 0, 1)] raises, while the image with the channel
    replicated is preprocessed to a tensor.  With a resampler that keeps the
    channel axis the results differ as well: the tensor of the crop has one
    channel, that of the replicated image three. *)
Lemma preprocess_image_single_channel :
  let crop := Array3 1 1 1 [[[7]]] in
  let replicated := rgb_replicate_channel 1 1 [[[7]]] in
  replicated = Array3 1 1 3 [[[7; 7; 7]]]
  /\ preprocess_image 2 cpu Mock.cv2_like_resize crop
     = Raise (ExternalError "permute")
  /\ is_ok (preprocess_image 2 cpu Mock.cv2_like_resize replicated) = true
  /\ preprocess_image 2 cpu Mock.cv2_like_resize crop
     <> preprocess_image 2 cpu Mock.cv2_like_resize replicated
  /\ match preprocess_image 2 cpu Mock.resize_nearest crop,
           preprocess_image 2 cpu Mock.resize_nearest replicated with
     | Ok t1, Ok t3 =>
         tshape t1 = [1; 1; 2; 2]%nat /\ tshape t3 = [1; 3; 2; 2]%nat
     | _, _ => False
     end
  /\ preprocess_image 2 cpu Mock.resize_nearest crop
     <> preprocess_image 2 cpu Mock.resize_nearest replicated.
Proof.
  split; [reflexivity|].
  split; [vm_compute; reflexivity|].
  split; [vm_compute; reflexivity|].
  split; [vm_compute; discriminate|].
  split; [vm_compute; split; reflexivity|].
  vm_compute. discriminate.
Qed.

(** ** Model loading *)

Lemma select_best_gpu_total nvidia_smi :
  exists dev, _select_best_gpu nvidia_smi = Ok dev.
Proof.
  unfold _select_best_gpu.
  destruct (_get_gpu_memory_usage nvidia_smi) as [|g gs]; [by exists cpu|].
  destruct (sort_reverse_head Gpu.free g gs) as (best & rest & _ & _ & -> & _).
  by eexists.
Qed.

Section StartupFacts.
Context (weights network face_detector : Type)
        (package_dir : string)
        (path_exists : string -> bool)
        (torch_load : string -> result (list (string * weights)))
        (EmoNet : Z -> device -> result network)
        (load_state_dict : network -> gmap string weights -> result network)
        (eval_mode : network -> network)
        (SFDDetector : string -> result face_detector)
        (n_classes : Z).

Local Abbreviation path := (state_dict_path package_dir n_classes).
Local Abbreviation load :=
  (_load_model weights network package_dir path_exists torch_load EmoNet
               load_state_dict eval_mode n_classes).
Local Abbreviation bind_weights :=
  (bind_weights weights network EmoNet load_state_dict eval_mode n_classes).
Local Abbreviation init :=
  (__init__ weights network face_detector package_dir path_exists torch_load
            EmoNet load_state_dict eval_mode SFDDetector n_classes).

Lemma load_model_absent self_device cudnn_benchmark :
  path_exists path = false ->
  load self_device cudnn_benchmark
  = Raise (FileNotFoundError ("Model weights not found at " ++ path)).
Proof. intros H. unfold _load_model. by rewrite H. Qed.

Lemma load_model_present self_device cudnn_benchmark :
  path_exists path = true ->
  load self_device cudnn_benchmark
  = (state_dict ← torch_load path;
     model ← bind_weights self_device state_dict;
     Ok (model,
         if String.eqb (device_type self_device) "cuda" then true
         else cudnn_benchmark)).
Proof. intros H. unfold _load_model. by rewrite H. Qed.

(** C9 (amended). When the file [emonet_{n_classes}.pth] of the [pretrained]
    directory does not exist, loading raises the missing-weights error, and
    so does [__init__]; loading can therefore succeed only if the file
    exists.  When the file exists, loading goes on to deserialise and bind
    the weights, and succeeds exactly when those library steps succeed. *)
Theorem load_model_weights_file self_device cudnn_benchmark :
  (path_exists path = false ->
   load self_device cudnn_benchmark
   = Raise (FileNotFoundError ("Model weights not found at " ++ path))
   /\ forall image_size nvidia_smi,
       init image_size nvidia_smi cudnn_benchmark
       = Raise (FileNotFoundError ("Model weights not found at " ++ path)))
  /\ (is_ok (load self_device cudnn_benchmark) = true ->
      path_exists path = true)
  /\ (path_exists path = true ->
      (is_ok (load self_device cudnn_benchmark) = true <->
       exists state_dict model,
         torch_load path = Ok state_dict
         /\ bind_weights self_device state_dict = Ok model))
  /\ path = package_dir ++ "/pretrained/emonet_" ++ str_of_int n_classes
              ++ ".pth".
Proof.
  split; [|split; [|split; [|reflexivity]]].
  - intros H. split; [by apply load_model_absent|].
    intros image_size nvidia_smi. unfold __init__.
    destruct (select_best_gpu_total nvidia_smi) as [dev ->]. simpl.
    by rewrite load_model_absent.
  - intros Hok. destruct (path_exists path) eqn:E; [done|].
    by rewrite load_model_absent in Hok.
  - intros H. rewrite load_model_present by done. split.
    + destruct (torch_load path) as [state_dict|]; [|discriminate].
      simpl.
      destruct (bind_weights self_device state_dict) as [model|] eqn:Hb;
        [|discriminate].
      intros _. by exists state_dict, model.
    + intros (state_dict & model & -> & Hb). simpl. by rewrite Hb.
Qed.

End StartupFacts.

Lemma load_model_weights_file_witness :
  Mock._load_model [] Mock.checkpoint
  = Raise (FileNotFoundError
             "Model weights not found at /app/emonet/pretrained/emonet_8.pth")
  /\ is_ok (Mock._load_model ["/app/emonet/pretrained/emonet_8.pth"]
                              Mock.checkpoint) = true.
Proof.
  destruct (load_model_weights_file unit unit unit Mock.package_dir
              (Mock.files []) Mock.checkpoint Mock.new_network Mock.bind id
              Mock.new_detector 8 cpu false) as (Habsent & _).
  destruct (load_model_weights_file unit unit unit Mock.package_dir
              (Mock.files ["/app/emonet/pretrained/emonet_8.pth"])
              Mock.checkpoint Mock.new_network Mock.bind id
              Mock.new_detector 8 cpu false) as (_ & _ & Hpresent & _).
  split.
  - apply Habsent. vm_compute. reflexivity.
  - apply Hpresent; [vm_compute; reflexivity|].
    eexists _, _. split; reflexivity.
Defined.

(** C9 as stated fails for a weights file that exists but cannot be
    deserialised: loading raises although the file is there. *)
Lemma load_model_corrupt_weights :
  Mock.files ["/app/emonet/pretrained/emonet_8.pth"]
             (state_dict_path Mock.package_dir 8) = true
  /\ Mock._load_model ["/app/emonet/pretrained/emonet_8.pth"]
                      Mock.corrupt_checkpoint
     = Raise (ExternalError "UnpicklingError")
  /\ ~ (is_ok (Mock._load_model ["/app/emonet/pretrained/emonet_8.pth"]
                                Mock.corrupt_checkpoint) = true
        <-> Mock.files ["/app/emonet/pretrained/emonet_8.pth"]
                       (state_dict_path Mock.package_dir 8) = true).
Proof.
  split; [vm_compute; reflexivity|]. split; [vm_compute; reflexivity|].
  intros [_ H]. specialize (H ltac:(vm_compute; reflexivity)).
  vm_compute in H. discriminate.
Qed.

(** * Further properties of the two modules *)

(** ** [predict] *)

Lemma emotion_classes_range i label :
  emotion_classes i = Ok label -> 0 <= i <= 7.
Proof.
  intros H. destruct i as [|p|p]; [lia| |discriminate].
  do 3 (destruct p as [p|p|]; try discriminate; try lia).
Qed.

Section MorePredictFacts.
Context (n_classes image_size : Z) (self_device : device)
        (detect_from_image : ndarray -> result (list (list float)))
        (model : tensor -> result emonet_output)
        (interpolate : ndarray -> Z -> result ndarray)
        (softmax : list float -> list float)
        (argmax : list float -> Z).

Local Abbreviation self_predict :=
  (predict n_classes image_size self_device detect_from_image model
           interpolate softmax argmax).

(** X1. Only the first box of the detector's list is used: dropping all
    other boxes from the list does not change what [predict] returns or
    raises. *)
Theorem predict_first_face_only image :
  self_predict image
  = predict n_classes image_size self_device (first_only detect_from_image)
            model interpolate softmax argmax image.
Proof.
  unfold predict, first_only.
  destruct (cv2.COLOR_RGB2BGR image) as [image_bgr|]; [|reflexivity].
  simpl. destruct (detect_from_image image_bgr) as [[|face rest]|];
    reflexivity.
Qed.

(** X2. A first box with fewer than four coordinates makes [predict] raise
    IndexError: no result dict is returned. *)
Theorem predict_short_box image image_bgr face rest :
  cv2.COLOR_RGB2BGR image = Ok image_bgr ->
  detect_from_image image_bgr = Ok (face :: rest) ->
  (length face < 4)%nat ->
  self_predict image = Raise IndexError.
Proof.
  intros Hcv Hdet Hlen. unfold predict. rewrite Hcv. simpl.
  rewrite Hdet. simpl.
  rewrite clamp_bbox_short; [reflexivity|]. by rewrite length_map.
Qed.

(** X3. In every prediction the reported box is the detected box, cast to
    integers, with its left and top coordinates raised to 0 and its right
    and bottom coordinates lowered to the image width and height; entries
    after the fourth (the detector's score) are kept.  So [x1 >= 0],
    [y1 >= 0], [x2 <= width] and [y2 <= height] always hold. *)
Theorem predict_bbox_clamped_sides image :
  field "face_detected" (self_predict image) = Some (PBool true) ->
  exists image_bgr face rest b0 b1 b2 b3 tail,
    cv2.COLOR_RGB2BGR image = Ok image_bgr
    /\ detect_from_image image_bgr = Ok (face :: rest)
    /\ map astype_int32 face = b0 :: b1 :: b2 :: b3 :: tail
    /\ field "face_bbox" (self_predict image)
       = Some (PList (Z.max 0 b0 :: Z.max 0 b1
                        :: Z.min (Z.of_nat (cols image)) b2
                        :: Z.min (Z.of_nat (rows image)) b3 :: tail))
    /\ 0 <= Z.max 0 b0 /\ 0 <= Z.max 0 b1
    /\ Z.min (Z.of_nat (cols image)) b2 <= Z.of_nat (cols image)
    /\ Z.min (Z.of_nat (rows image)) b3 <= Z.of_nat (rows image).
Proof.
  intros Hface.
  destruct (predict_prediction_crop _ _ _ _ _ _ _ _ _ Hface)
    as (image_bgr & face & rest & x1 & y1 & x2 & y2 & tail
        & Hcv & Hdet & Hbox & _ & _ & Hbbox).
  destruct (clamp_bbox_inv _ _ _ Hbox) as (b0 & b1 & b2 & b3 & tail' & Hf & Hc).
  unfold clamped in Hc. injection Hc as -> -> -> -> ->.
  exists image_bgr, face, rest, b0, b1, b2, b3, tail'.
  repeat split; try done; lia.
Qed.

(** X4. In every prediction, [emotion] is the label of [emotion_class] in
    the label table, and [emotion_class] is one of 0..7. *)
Theorem predict_emotion_label image :
  field "face_detected" (self_predict image) = Some (PBool true) ->
  exists k label,
    field "emotion_class" (self_predict image) = Some (PInt k)
    /\ field "emotion" (self_predict image) = Some (PStr label)
    /\ emotion_classes k = Ok label
    /\ 0 <= k <= 7.
Proof.
  intros Hfield. apply field_Some in Hfield as (r & Hr & Hface).
  rewrite Hr. simpl.
  destruct (predict_inv _ _ _ _ _ _ _ _ _ _ Hr)
    as (image_bgr & faces & Hcv & Hdet & Hcase).
  destruct Hcase as [[_ ->] | Hcase]; [vm_compute in Hface; discriminate|].
  destruct Hcase as (face & rest & x1 & y1 & x2 & y2 & tail & face_crop
                     & -> & Hbox & Hcrop & Hcase).
  destruct Hcase as [[_ ->] | [_ Hinfer]];
    [vm_compute in Hface; discriminate|].
  apply infer_inv in Hinfer
    as (image_tensor & output & probs & label & _ & _ & _ & Hl & ->).
  eexists _, label. split; [by simplify_map_eq|].
  split; [by simplify_map_eq|]. split; [exact Hl|].
  by eapply emotion_classes_range.
Qed.

(** X5. When the right and bottom coordinates of the detected box are not
    negative, a prediction reports a box that lies within the image and is
    not empty, [0 <= x1 < x2 <= width] and [0 <= y1 < y2 <= height], and
    the crop that was analysed is exactly that box: it has [y2 - y1] rows
    and [x2 - x1] columns. *)
Theorem predict_bbox_is_crop image image_bgr face rest b0 b1 b2 b3 tail :
  cv2.COLOR_RGB2BGR image = Ok image_bgr ->
  detect_from_image image_bgr = Ok (face :: rest) ->
  map astype_int32 face = b0 :: b1 :: b2 :: b3 :: tail ->
  0 <= b2 -> 0 <= b3 ->
  field "face_detected" (self_predict image) = Some (PBool true) ->
  exists x1 y1 x2 y2 face_crop,
    field "face_bbox" (self_predict image)
    = Some (PList (x1 :: y1 :: x2 :: y2 :: tail))
    /\ 0 <= x1 < x2 /\ x2 <= Z.of_nat (cols image)
    /\ 0 <= y1 < y2 /\ y2 <= Z.of_nat (rows image)
    /\ crop_face image (x1 :: y1 :: x2 :: y2 :: tail) = Ok face_crop
    /\ Z.of_nat (rows face_crop) = y2 - y1
    /\ Z.of_nat (cols face_crop) = x2 - x1.
Proof.
  intros Hcv Hdet Hface Hb2 Hb3 Hdetected.
  destruct (predict_prediction_crop _ _ _ _ _ _ _ _ _ Hdetected)
    as (bgr' & face' & rest' & x1 & y1 & x2 & y2 & tail'
        & Hcv' & Hdet' & Hbox & Hh & Hw & Hbbox).
  rewrite Hcv in Hcv'. injection Hcv' as <-.
  rewrite Hdet in Hdet'. injection Hdet' as <- <-.
  destruct (predict_face n_classes image_size self_device detect_from_image
              model interpolate softmax argmax _ _ _ _ _ _ _ _ _
              Hcv Hdet Hbox)
    as (face_crop & Hcrop & Hrows & Hcols & _ & _).
  rewrite Hface, clamp_bbox_eq in Hbox. unfold clamped in Hbox.
  injection Hbox as <- <- <- <- <-.
  exists (Z.max 0 b0), (Z.max 0 b1), (Z.min (Z.of_nat (cols image)) b2),
    (Z.min (Z.of_nat (rows image)) b3), face_crop.
  assert (Hw' := slice_len_nonneg (cols image) (Z.max 0 b0)
                   (Z.min (Z.of_nat (cols image)) b2)).
  assert (Hh' := slice_len_nonneg (rows image) (Z.max 0 b1)
                   (Z.min (Z.of_nat (rows image)) b3)).
  rewrite Hrows, Hcols.
  split; [exact Hbbox|]. repeat split; try exact Hcrop; lia.
Qed.

(** X6. Whatever dict [predict] returns, the EmotionResponse constructor
    accepts it: no key is missing and every field passes validation.  For a
    result without prediction every optional field but the message is None;
    for a prediction the message is None and label, valence, arousal,
    probabilities and box are copied from the dict. *)
Theorem make_response_of_predict image r :
  self_predict image = Ok r ->
  exists resp,
    make_response r = Ok resp
    /\ ((face_detected resp = false
         /\ emotion resp = None /\ valence resp = None
         /\ arousal resp = None /\ emotion_probabilities resp = None
         /\ face_bbox resp = None
         /\ (r = NoFace /\ message resp = Some "No face detected in image"
             \/ r = InvalidCrop /\ message resp = Some "Invalid face crop"))
        \/ (face_detected resp = true
            /\ message resp = None
            /\ (PStr <$> emotion resp) = r !! "emotion"
            /\ (PFloat <$> valence resp) = r !! "valence"
            /\ (PFloat <$> arousal resp) = r !! "arousal"
            /\ (PDict <$> emotion_probabilities resp)
               = r !! "emotion_probabilities"
            /\ (PList <$> face_bbox resp) = r !! "face_bbox"
            /\ is_Some (emotion resp) /\ is_Some (valence resp)
            /\ is_Some (arousal resp)
            /\ is_Some (emotion_probabilities resp)
            /\ is_Some (face_bbox resp))).
Proof.
  intros Hr.
  destruct (predict_inv _ _ _ _ _ _ _ _ _ _ Hr)
    as (image_bgr & faces & Hcv & Hdet & Hcase).
  destruct Hcase as [[_ ->] | Hcase].
  { eexists. split; [vm_compute; reflexivity|]. left. simpl.
    repeat split; try reflexivity. by left. }
  destruct Hcase as (face & rest & x1 & y1 & x2 & y2 & tail & face_crop
                     & -> & Hbox & Hcrop & Hcase).
  destruct Hcase as [[_ ->] | [_ Hinfer]].
  { eexists. split; [vm_compute; reflexivity|]. left. simpl.
    repeat split; try reflexivity. by right. }
  apply infer_inv in Hinfer
    as (image_tensor & output & probs & label & _ & _ & _ & _ & ->).
  eexists. split.
  { unfold make_response, dict_getitem, dict_get. simplify_map_eq.
    reflexivity. }
  right. simpl. repeat split; try (by simplify_map_eq); by eexists.
Qed.

End MorePredictFacts.

(** ** The detector on concrete inputs, continued *)

Lemma predict_short_box_witness :
  predict 8 4 cpu
          (Mock.detector [[float32_of_int 1; float32_of_int 2;
                           float32_of_int 3]])
          (Mock.network Mock.finite_output) Mock.resize_nearest
          Mock.uniform_softmax Mock.first_argmax (Mock.blank_image 6 6)
  = Raise IndexError.
Proof.
  refine (predict_short_box 8 4 cpu _ _ _ _ _ (Mock.blank_image 6 6) _ _ []
            _ _ _).
  - vm_compute. reflexivity.
  - reflexivity.
  - simpl. lia.
Defined.

Lemma predict_bbox_clamped_sides_witness :
  exists image_bgr face rest b0 b1 b2 b3 tail,
    cv2.COLOR_RGB2BGR (Mock.blank_image 6 6) = Ok image_bgr
    /\ Mock.detector [Mock.box (-2) 1 9 5] image_bgr = Ok (face :: rest)
    /\ map astype_int32 face = b0 :: b1 :: b2 :: b3 :: tail
    /\ field "face_bbox"
             (Mock.predict [Mock.box (-2) 1 9 5] Mock.finite_output
                           (Mock.blank_image 6 6))
       = Some (PList (Z.max 0 b0 :: Z.max 0 b1
                        :: Z.min (Z.of_nat (cols (Mock.blank_image 6 6))) b2
                        :: Z.min (Z.of_nat (rows (Mock.blank_image 6 6))) b3
                        :: tail))
    /\ 0 <= Z.max 0 b0 /\ 0 <= Z.max 0 b1
    /\ Z.min (Z.of_nat (cols (Mock.blank_image 6 6))) b2
       <= Z.of_nat (cols (Mock.blank_image 6 6))
    /\ Z.min (Z.of_nat (rows (Mock.blank_image 6 6))) b3
       <= Z.of_nat (rows (Mock.blank_image 6 6)).
Proof.
  apply (predict_bbox_clamped_sides 8 4 cpu
           (Mock.detector [Mock.box (-2) 1 9 5])
           (Mock.network Mock.finite_output) Mock.resize_nearest
           Mock.uniform_softmax Mock.first_argmax (Mock.blank_image 6 6)).
  vm_compute. reflexivity.
Defined.

Example predict_bbox_clamped_example :
  field "face_bbox"
        (Mock.predict [Mock.box (-2) 1 9 5] Mock.finite_output
                      (Mock.blank_image 6 6))
  = Some (PList [0; 1; 6; 5; 0]).
Proof. vm_compute. reflexivity. Qed.

Lemma predict_bbox_is_crop_witness :
  exists x1 y1 x2 y2 face_crop,
    field "face_bbox"
          (Mock.predict [Mock.box (-2) 1 9 5] Mock.finite_output
                        (Mock.blank_image 6 6))
    = Some (PList [x1; y1; x2; y2; 0])
    /\ 0 <= x1 < x2 /\ x2 <= Z.of_nat (cols (Mock.blank_image 6 6))
    /\ 0 <= y1 < y2 /\ y2 <= Z.of_nat (rows (Mock.blank_image 6 6))
    /\ crop_face (Mock.blank_image 6 6) [x1; y1; x2; y2; 0] = Ok face_crop
    /\ Z.of_nat (rows face_crop) = y2 - y1
    /\ Z.of_nat (cols face_crop) = x2 - x1.
Proof.
  apply (predict_bbox_is_crop 8 4 cpu
           (Mock.detector [Mock.box (-2) 1 9 5])
           (Mock.network Mock.finite_output) Mock.resize_nearest
           Mock.uniform_softmax Mock.first_argmax (Mock.blank_image 6 6)
           (Array3 6 6 3 (replicate 6 (replicate 6 [0; 0; 0])))
           (Mock.box (-2) 1 9 5) [] (-2) 1 9 5 [0]);
    try (vm_compute; reflexivity); lia.
Defined.

Lemma predict_emotion_label_witness :
  exists k label,
    field "emotion_class"
          (Mock.predict [Mock.box 1 1 5 5] Mock.finite_output
                        (Mock.blank_image 6 6)) = Some (PInt k)
    /\ field "emotion"
             (Mock.predict [Mock.box 1 1 5 5] Mock.finite_output
                           (Mock.blank_image 6 6)) = Some (PStr label)
    /\ emotion_classes k = Ok label
    /\ 0 <= k <= 7.
Proof.
  apply (predict_emotion_label 8 4 cpu (Mock.detector [Mock.box 1 1 5 5])
           (Mock.network Mock.finite_output) Mock.resize_nearest
           Mock.uniform_softmax Mock.first_argmax (Mock.blank_image 6 6)).
  vm_compute. reflexivity.
Defined.

Lemma predict_probabilities_entries_witness :
  exists image_tensor output probs,
    Mock.network Mock.finite_output image_tensor = Ok output
    /\ field "emotion_class"
             (Mock.predict [Mock.box 1 1 5 5] Mock.finite_output
                           (Mock.blank_image 6 6))
       = Some (PInt (Mock.first_argmax
                       (Mock.uniform_softmax (expression output))))
    /\ field "emotion_probabilities"
             (Mock.predict [Mock.box 1 1 5 5] Mock.finite_output
                           (Mock.blank_image 6 6)) = Some (PDict probs)
    /\ 8 <= 8
    /\ base.size probs = Z.to_nat 8
    /\ (forall i label,
           0 <= i < 8 -> emotion_classes i = Ok label ->
           probs !! label
           = Mock.uniform_softmax (expression output) !! Z.to_nat i
           /\ is_Some (Mock.uniform_softmax (expression output)
                                            !! Z.to_nat i)).
Proof.
  apply (predict_probabilities_entries 8 4 cpu
           (Mock.detector [Mock.box 1 1 5 5])
           (Mock.network Mock.finite_output) Mock.resize_nearest
           Mock.uniform_softmax Mock.first_argmax (Mock.blank_image 6 6)).
  vm_compute. reflexivity.
Defined.

Lemma make_response_of_predict_witness :
  exists resp,
    make_response NoFace = Ok resp /\ face_detected resp = false
    /\ message resp = Some "No face detected in image".
Proof.
  destruct (make_response_of_predict 8 4 cpu (Mock.detector [])
              (Mock.network Mock.finite_output) Mock.resize_nearest
              Mock.uniform_softmax Mock.first_argmax (Mock.blank_image 2 2)
              NoFace ltac:(reflexivity))
    as (resp & Hresp & Hcase).
  exists resp. split; [exact Hresp|].
  destruct Hcase as [(Hf & _ & _ & _ & _ & _ & Hm) | (Hf & _)].
  - split; [exact Hf|]. destruct Hm as [[_ Hm] | [Hne _]]; [exact Hm|].
    exfalso. vm_compute in Hresp. injection Hresp as <-. discriminate.
  - exfalso. vm_compute in Hresp. injection Hresp as <-. discriminate.
Defined.

(** ** [preprocess_image] *)

Lemma map_lookup {A B} (f : A -> B) (l : list A) (i : nat) :
  map f l !! i = f <$> (l !! i).
Proof.
  revert i. induction l as [|x l IH]; intros [|i]; simpl; try reflexivity.
  apply IH.
Qed.

(** A byte divided by 255 in [float32] lies between 0.0 and 1.0. *)
Lemma byte_over_255 (v : Z) :
  0 <= v <= 255 ->
  in_zero_one (float32_div (float32_of_int v) f_255) = true.
Proof.
  intros Hv.
  assert (Hall : forallb
                   (fun v => in_zero_one
                               (float32_div (float32_of_int v) f_255))
                   (seqZ 0 256) = true) by (vm_compute; reflexivity).
  rewrite forallb_forall in Hall. apply Hall.
  apply list_elem_of_In, elem_of_seqZ. lia.
Qed.

Lemma lookup_total_byte (p : list Z) (k : nat) :
  Forall (fun v => 0 <= v <= 255) p -> 0 <= p !!! k <= 255.
Proof.
  intros Hp. rewrite list_lookup_total_alt.
  destruct (p !! k) as [v|] eqn:E; simpl.
  - rewrite Forall_forall in Hp. apply Hp. by eapply list_elem_of_lookup_2.
  - unfold inhabitant. simpl. lia.
Qed.

Section MorePreprocessFacts.
Context (image_size : Z) (self_device : device)
        (interpolate : ndarray -> Z -> result ndarray).

Local Abbreviation self_preprocess_image :=
  (preprocess_image image_size self_device interpolate).

Lemma to_tensor_values h w c px :
  uint8 (Array3 h w c px) ->
  Forall (fun v => in_zero_one v = true)
         (concat (concat (concat [map (channel_plane px) (seq 0 c)]))).
Proof.
  intros Hpx. simpl in Hpx. simpl. rewrite app_nil_r.
  apply Forall_concat, Forall_concat.
  apply List.Forall_map. apply Forall_forall. intros k _.
  unfold channel_plane. apply List.Forall_map.
  eapply Forall_impl; [exact Hpx|]. intros row Hrow. simpl.
  apply List.Forall_map.
  eapply Forall_impl; [exact Hrow|]. intros p Hp. simpl.
  apply byte_over_255. by apply lookup_total_byte.
Qed.

(** X7. When preprocessing returns a tensor, the crop was first brought to
    three channels (grayscale replicated, fourth channel dropped, anything
    else unchanged) and handed, non-empty, to the resampler with a positive
    target size; for the resampled array of shape (h, w, c) the tensor has
    shape [1, c, h, w], lives on the detector's device, and its entry
    [0, k, r, col] is pixel [r, col, k] divided by 255; when the resampled
    pixels are bytes, every entry lies between 0.0 and 1.0. *)
Theorem preprocess_image_tensor crop t :
  self_preprocess_image crop = Ok t ->
  exists normalized h w c px,
    normalized = match crop with
                 | Array2 h0 w0 gray => rgb_replicate h0 w0 gray
                 | Array3 h0 w0 c0 px0 =>
                     if (c0 =? 4)%nat then drop_alpha h0 w0 px0 else crop
                 end
    /\ cv2.empty normalized = false
    /\ 0 < image_size
    /\ interpolate normalized image_size = Ok (Array3 h w c px)
    /\ tshape t = [1%nat; c; h; w]
    /\ tdevice t = self_device
    /\ length (tdata t) = 1%nat
    /\ (forall k r col row p,
          (k < c)%nat -> px !! r = Some row -> row !! col = Some p ->
          tensor_entry t 0 k r col
          = Some (float32_div (float32_of_int (p !!! k)) f_255))
    /\ (uint8 (Array3 h w c px) ->
        Forall (fun v => in_zero_one v = true) (tensor_values t)).
Proof.
  unfold preprocess_image. intros H.
  set (normalized := match crop with
                     | Array2 h0 w0 gray => rgb_replicate h0 w0 gray
                     | Array3 h0 w0 c0 px0 =>
                         if (c0 =? 4)%nat then drop_alpha h0 w0 px0 else crop
                     end).
  assert (Hres : exists resized,
             cv2_resize image_size interpolate normalized = Ok resized
             /\ to_tensor self_device resized = Ok t).
  { destruct crop as [h0 w0 gray|h0 w0 c0 px0].
    - unfold cv2.COLOR_GRAY2RGB in H.
      destruct (cv2.empty (Array2 h0 w0 gray)); simpl in H; [discriminate|].
      change (Array3 h0 w0 3 (map (map cv2.gray_pixel) gray))
        with (rgb_replicate h0 w0 gray) in H.
      destruct (cv2_resize _ _ (rgb_replicate h0 w0 gray)) as [resized|] eqn:E;
        [|discriminate].
      by exists resized.
    - subst normalized. destruct (c0 =? 4)%nat eqn:Hc; simpl in H.
      + apply Nat.eqb_eq in Hc. subst c0.
        change (Array3 h0 w0 (Nat.min 4 3) (map (map (take 3)) px0))
          with (drop_alpha h0 w0 px0) in H.
        destruct (cv2_resize _ _ (drop_alpha h0 w0 px0)) as [resized|] eqn:E;
          [|discriminate].
        by exists resized.
      + destruct (cv2_resize _ _ (Array3 h0 w0 c0 px0)) as [resized|] eqn:E;
          [|discriminate].
        by exists resized. }
  destruct Hres as (resized & Hresize & Ht).
  unfold cv2_resize in Hresize.
  destruct (cv2.empty normalized) eqn:Hempty; [discriminate|].
  destruct (image_size <=? 0) eqn:Hsize; [discriminate|]. simpl in Hresize.
  apply Z.leb_gt in Hsize.
  destruct resized as [h w px|h w c px]; [discriminate|].
  injection Ht as <-.
  exists normalized, h, w, c, px.
  repeat split; try done.
  - intros k r col row p Hk Hr Hcol. unfold tensor_entry. simpl.
    rewrite map_lookup, lookup_seq_lt by done. simpl.
    unfold channel_plane. rewrite map_lookup, Hr. simpl.
    by rewrite map_lookup, Hcol.
  - intros Hpx. unfold tensor_values. simpl tdata.
    exact (to_tensor_values h w c px Hpx).
Qed.

End MorePreprocessFacts.

Lemma preprocess_image_tensor_witness :
  exists t,
    preprocess_image 2 cpu Mock.resize_nearest (Array3 1 1 4 [[[255; 0; 51; 77]]])
    = Ok t
    /\ tshape t = [1; 3; 2; 2]%nat
    /\ Forall (fun v => in_zero_one v = true) (tensor_values t).
Proof.
  eexists. split; [vm_compute; reflexivity|].
  destruct (preprocess_image_tensor 2 cpu Mock.resize_nearest
              (Array3 1 1 4 [[[255; 0; 51; 77]]]) _
              ltac:(vm_compute; reflexivity))
    as (normalized & h & w & c & px & -> & _ & _ & Hres & Hshape & _ & _
        & _ & Hrange).
  vm_compute in Hres. injection Hres as <- <- <- <-.
  split; [reflexivity|]. apply Hrange.
  repeat constructor; lia.
Defined.

(** ** Channel order *)

Lemma swap_rb_involutive (p : list Z) :
  length p = 3%nat -> cv2.swap_rb (cv2.swap_rb p) = p.
Proof.
  destruct p as [|r [|g [|b [|? ?]]]]; try discriminate. reflexivity.
Qed.

Lemma COLOR_RGB2BGR_swapped h w px :
  Np.wf (Array3 h w 3 px) -> (0 < h)%nat -> (0 < w)%nat ->
  cv2.COLOR_RGB2BGR (Array3 h w 3 px)
  = Ok (Array3 h w 3 (map (map cv2.swap_rb) px))
  /\ Np.wf (Array3 h w 3 (map (map cv2.swap_rb) px))
  /\ cv2.COLOR_RGB2BGR (Array3 h w 3 (map (map cv2.swap_rb) px))
     = Ok (Array3 h w 3 px).
Proof.
  intros [Hh Hrows] Hh0 Hw0.
  assert (Hne : forall px', cv2.empty (Array3 h w 3 px') = false).
  { intros px'. unfold cv2.empty. rewrite size_Array3. apply Z.eqb_neq. lia. }
  split; [|split].
  - unfold cv2.COLOR_RGB2BGR. by rewrite Hne.
  - split; [by rewrite length_map|].
    apply List.Forall_map. eapply Forall_impl; [exact Hrows|].
    intros row [Hw Hpx]. simpl. split; [by rewrite length_map|].
    apply List.Forall_map. eapply Forall_impl; [exact Hpx|].
    intros p Hp. simpl.
    destruct p as [|r [|g [|b [|? ?]]]]; try discriminate. reflexivity.
  - unfold cv2.COLOR_RGB2BGR. rewrite Hne. simpl. f_equal. f_equal.
    rewrite List.map_map. rewrite <- (List.map_id px) at 2.
    apply List.map_ext_Forall. eapply Forall_impl; [exact Hrows|].
    intros row [_ Hpx]. simpl. rewrite List.map_map.
    rewrite <- (List.map_id row) at 2.
    apply List.map_ext_Forall. eapply Forall_impl; [exact Hpx|].
    intros p Hp. simpl. by apply swap_rb_involutive.
Qed.

(** X8. For a non-empty three-channel image, converting BGR to RGB (as the
    upload endpoint does) and RGB to BGR (as [predict] does before face
    detection) gives the image back: the face detector receives the decoded
    array itself. *)
Theorem bgr_rgb_round_trip h w px :
  Np.wf (Array3 h w 3 px) -> (0 < h)%nat -> (0 < w)%nat ->
  exists rgb,
    cv2_COLOR_BGR2RGB (Array3 h w 3 px) = Ok rgb
    /\ Np.wf rgb
    /\ cv2.COLOR_RGB2BGR rgb = Ok (Array3 h w 3 px).
Proof.
  intros Hwf Hh Hw.
  destruct (COLOR_RGB2BGR_swapped h w px Hwf Hh Hw) as (Hto & Hwf' & Hback).
  exists (Array3 h w 3 (map (map cv2.swap_rb) px)).
  split; [exact Hto|]. split; [exact Hwf' | exact Hback].
Qed.

Lemma bgr_rgb_round_trip_witness :
  exists rgb,
    cv2_COLOR_BGR2RGB (Array3 1 2 3 [[[1; 2; 3]; [4; 5; 6]]]) = Ok rgb
    /\ rgb = Array3 1 2 3 [[[3; 2; 1]; [6; 5; 4]]]
    /\ cv2.COLOR_RGB2BGR rgb = Ok (Array3 1 2 3 [[[1; 2; 3]; [4; 5; 6]]]).
Proof.
  destruct (bgr_rgb_round_trip 1 2 [[[1; 2; 3]; [4; 5; 6]]])
    as (rgb & Hrgb & _ & Hback).
  - split; [reflexivity|]. repeat constructor.
  - lia.
  - lia.
  - exists rgb. split; [exact Hrgb|]. split; [|exact Hback].
    vm_compute in Hrgb. by injection Hrgb as <-.
Defined.

(** ** Parsing of the GPU table *)

Lemma parse_rows_app lines1 lines2 :
  parse_rows (lines1 ++ lines2)%list
  = (rows1 ← parse_rows lines1;
     rows2 ← parse_rows lines2;
     Ok (rows1 ++ rows2)%list).
Proof.
  induction lines1 as [|line rest IH]; simpl.
  - by destruct (parse_rows lines2).
  - destruct (parse_row line) as [row|]; simpl; [|reflexivity].
    rewrite IH. destruct (parse_rows rest) as [rows1|]; simpl; [|reflexivity].
    destruct (parse_rows lines2) as [rows2|]; simpl; [|reflexivity].
    by rewrite app_assoc.
Qed.

Lemma parse_rows_raise lines line :
  In line lines -> is_ok (parse_row line) = false ->
  is_ok (parse_rows lines) = false.
Proof.
  induction lines as [|l rest IH]; intros Hin Hbad; [destruct Hin|].
  simpl. destruct Hin as [-> | Hin].
  - destruct (parse_row line); [discriminate|reflexivity].
  - destruct (parse_row l); simpl; [|reflexivity].
    specialize (IH Hin Hbad). by destruct (parse_rows rest).
Qed.

(** X9. One line of [nvidia-smi]'s output with three fields of which one is
    not an integer loses the whole table, also the rows that parse: the
    query returns the empty list and the CPU is selected. *)
Theorem gpu_query_bad_field_discards_table stdout line p0 p1 p2 :
  In line (split newline (strip stdout)) ->
  split ", " line = [p0; p1; p2] ->
  is_ok (int p0) = false \/ is_ok (int p1) = false \/ is_ok (int p2) = false ->
  _get_gpu_memory_usage (Ok stdout) = []
  /\ _select_best_gpu (Ok stdout) = Ok cpu.
Proof.
  intros Hin Hsplit Hbad.
  assert (Hrow : is_ok (parse_row line) = false).
  { unfold parse_row. rewrite Hsplit.
    destruct (int p0); simpl; [|reflexivity].
    destruct (int p1); simpl; [|reflexivity].
    destruct (int p2); simpl; [|reflexivity].
    destruct Hbad as [H | [H | H]]; discriminate. }
  pose proof (parse_rows_raise _ _ Hin Hrow) as Hrows.
  assert (Hq : _get_gpu_memory_usage (Ok stdout) = []).
  { unfold _get_gpu_memory_usage, _get_gpu_memory_usage_try, try_except.
    simpl. by destruct (parse_rows _). }
  split; [exact Hq|]. unfold _select_best_gpu. by rewrite Hq.
Qed.

Lemma gpu_query_bad_field_discards_table_witness :
  _get_gpu_memory_usage
    (Ok ("0, 10, 100" ++ newline ++ "1, [N/A], 100" ++ newline)) = []
  /\ _select_best_gpu
       (Ok ("0, 10, 100" ++ newline ++ "1, [N/A], 100" ++ newline)) = Ok cpu.
Proof.
  apply (gpu_query_bad_field_discards_table
           ("0, 10, 100" ++ newline ++ "1, [N/A], 100" ++ newline)
           "1, [N/A], 100" "1" "[N/A]" "100").
  - vm_compute. right. left. reflexivity.
  - vm_compute. reflexivity.
  - right. left. vm_compute. reflexivity.
Defined.

(** X10. A line that does not have exactly three fields separated by
    comma-and-space (a blank line, a header, a row with another separator)
    is skipped: the table is the one read from the other lines. *)
Theorem gpu_query_skips_other_lines lines1 line lines2 :
  length (split ", " line) <> 3%nat ->
  parse_rows (lines1 ++ line :: lines2)%list
  = parse_rows (lines1 ++ lines2)%list.
Proof.
  intros Hlen.
  assert (Hrow : parse_row line = Ok []).
  { unfold parse_row.
    destruct (split ", " line) as [|p0 [|p1 [|p2 [|? ?]]]]; try reflexivity.
    by destruct Hlen. }
  rewrite !parse_rows_app. simpl. rewrite Hrow. simpl.
  destruct (parse_rows lines1) as [rows1|]; simpl; [|reflexivity].
  by destruct (parse_rows lines2).
Qed.

Lemma gpu_query_skips_other_lines_witness :
  parse_rows (["0, 10, 100"] ++ "index,used,total" :: ["1, 20, 100"])%list
  = parse_rows (["0, 10, 100"] ++ ["1, 20, 100"])%list.
Proof.
  apply (gpu_query_skips_other_lines ["0, 10, 100"] "index,used,total"
           ["1, 20, 100"]).
  vm_compute. lia.
Defined.

(** ** Renaming of the checkpoint keys *)

Lemma split_go_nonempty sep skip cur s : split_go sep skip cur s <> [].
Proof.
  revert skip cur. induction s as [|c s IH]; intros skip cur; simpl.
  { discriminate. }
  destruct skip; [|apply IH].
  destruct (match sep with
            | EmptyString => true
            | String a s1' =>
                match ascii_dec a c with
                | left _ => String.prefix s1' s
                | right _ => false
                end
            end); [discriminate|apply IH].
Qed.

(** A string without occurrence of the separator is a single field. *)
Lemma split_go_not_contains sep cur s :
  contains sep s = false ->
  split_go sep 0 cur s
  = [string_of_list_ascii (rev cur ++ list_ascii_of_string s)].
Proof.
  revert cur. induction s as [|c s IH]; intros cur H; simpl.
  - by rewrite app_nil_r.
  - simpl in H. apply orb_false_iff in H as [Hp Hc].
    simpl in Hp. rewrite Hp. rewrite IH by done. simpl.
    by rewrite <- app_assoc.
Qed.

Lemma replace_not_contains old new s :
  contains old s = false -> replace old new s = s.
Proof.
  intros H. unfold replace, split. rewrite split_go_not_contains by done.
  simpl. apply string_of_list_ascii_of_string.
Qed.

Lemma join_empty_head (parts : list string) :
  parts <> [] -> join EmptyString (EmptyString :: parts) = join EmptyString parts.
Proof. destruct parts as [|p ps]; [done|]. reflexivity. Qed.

(** X11. Which keys the renaming changes: a leading ["module."] is removed,
    and a key in which ["module."] does not occur is left as it is. *)
Theorem renamed_module_prefix (k : string) :
  renamed ("module." ++ k) = renamed k
  /\ (contains "module." k = false -> renamed k = k).
Proof.
  split; [|apply replace_not_contains].
  unfold renamed, replace.
  assert (Hsplit : split "module." ("module." ++ k)
                   = EmptyString :: split "module." k).
  { unfold split. simpl. destruct k; reflexivity. }
  rewrite Hsplit. apply join_empty_head, split_go_nonempty.
Qed.

Lemma renamed_module_prefix_witness :
  renamed ("module." ++ "conv1.weight") = renamed "conv1.weight"
  /\ renamed "conv1.weight" = "conv1.weight".
Proof.
  destruct (renamed_module_prefix "conv1.weight") as [Hprefix Hsame].
  split; [exact Hprefix|]. apply Hsame. vm_compute. reflexivity.
Defined.


Lemma strip_module_prefix_snoc {W} (state_dict : list (string * W)) kv :
  strip_module_prefix W (state_dict ++ [kv])
  = <[renamed kv.1 := kv.2]> (strip_module_prefix W state_dict).
Proof. unfold strip_module_prefix. by rewrite foldl_app. Qed.

(** The table after renaming maps a key to the value of the last item that
    is renamed to it. *)
Lemma strip_module_prefix_lookup {W} (state_dict : list (string * W)) k :
  strip_module_prefix W state_dict !! k = last_renamed k state_dict.
Proof.
  unfold last_renamed.
  induction state_dict as [|kv rest IH] using rev_ind; [reflexivity|].
  rewrite strip_module_prefix_snoc, filter_app, filter_cons, filter_nil.
  destruct (decide (renamed kv.1 = k)) as [<- | Hne].
  - by rewrite lookup_insert_eq, last_snoc.
  - rewrite lookup_insert_ne by done. by rewrite app_nil_r.
Qed.

Lemma filter_renamed_fresh {W} (state_dict : list (string * W)) k :
  k ∉ map (fun kv => renamed kv.1) state_dict ->
  filter (fun kv => renamed kv.1 = k) state_dict = [].
Proof.
  induction state_dict as [|kv rest IH]; intros Hk; [reflexivity|].
  simpl in Hk. apply not_elem_of_cons in Hk as [Hne Hk].
  rewrite filter_cons, decide_False by done. by apply IH.
Qed.

Lemma last_filter_renamed_unique {W} (state_dict : list (string * W)) kv :
  NoDup (map (fun kv => renamed kv.1) state_dict) ->
  kv ∈ state_dict ->
  last (filter (fun kv' => renamed kv'.1 = renamed kv.1) state_dict)
  = Some kv.
Proof.
  induction state_dict as [|kv0 rest IH]; intros Hnd Hin.
  { by apply elem_of_nil in Hin. }
  simpl in Hnd. apply NoDup_cons in Hnd as [Hfresh Hnd].
  rewrite filter_cons. apply elem_of_cons in Hin as [-> | Hin].
  - rewrite decide_True by done. by rewrite filter_renamed_fresh.
  - rewrite decide_False; [by apply IH|].
    intros Heq. apply Hfresh. rewrite Heq.
    apply list_elem_of_In, in_map_iff. exists kv.
    split; [reflexivity|]. by apply list_elem_of_In.
Qed.

(** X12. The renamed checkpoint maps a key to the value of the last item
    renamed to that key, and has no entry for a key to which no item is
    renamed; so an item is lost exactly when a later item gets the same new
    key, and when all new keys are distinct every item is found under its
    new key and the table has as many entries as the checkpoint. *)
Theorem strip_module_prefix_last_wins {W} (state_dict : list (string * W)) :
  (forall k, strip_module_prefix W state_dict !! k
             = last_renamed k state_dict)
  /\ (forall front key v back,
        state_dict = (front ++ (key, v) :: back)%list ->
        renamed key ∉ map (fun kv => renamed kv.1) back ->
        strip_module_prefix W state_dict !! renamed key = Some v)
  /\ (NoDup (map (fun kv => renamed kv.1) state_dict) ->
      base.size (strip_module_prefix W state_dict) = length state_dict
      /\ forall kv, kv ∈ state_dict ->
                    strip_module_prefix W state_dict !! renamed kv.1
                    = Some kv.2).
Proof.
  split; [apply strip_module_prefix_lookup|]. split.
  - intros front key v back -> Hfresh.
    rewrite strip_module_prefix_lookup. unfold last_renamed.
    rewrite filter_app, filter_cons, decide_True by done.
    rewrite (filter_renamed_fresh back (renamed key) Hfresh).
    by rewrite last_snoc.
  - intros Hnd. split.
    + induction state_dict as [|kv rest IH] using rev_ind; [reflexivity|].
      rewrite map_app in Hnd. apply NoDup_app in Hnd as (Hnd & Hfresh & _).
      rewrite strip_module_prefix_snoc, length_app. simpl.
      rewrite map_size_insert_None; [rewrite IH by done; lia|].
      rewrite strip_module_prefix_lookup. unfold last_renamed.
      rewrite filter_renamed_fresh; [reflexivity|].
      intros Hin. apply (Hfresh _ Hin). simpl. by left.
    + intros kv Hin. rewrite strip_module_prefix_lookup. unfold last_renamed.
      by rewrite last_filter_renamed_unique.
Qed.

Lemma strip_module_prefix_last_wins_witness :
  strip_module_prefix nat
    [("module.conv.weight", 1%nat); ("fc.bias", 2%nat);
     ("conv.weight", 3%nat)] !! "conv.weight" = Some 3%nat.
Proof.
  destruct (strip_module_prefix_last_wins
              [("module.conv.weight", 1%nat); ("fc.bias", 2%nat);
               ("conv.weight", 3%nat)]) as (_ & Hlast & _).
  apply (Hlast [("module.conv.weight", 1%nat); ("fc.bias", 2%nat)]
               "conv.weight" 3%nat []).
  - reflexivity.
  - simpl. apply not_elem_of_nil.
Defined.

(** ** [cleanup] *)
Section CleanupFacts.
Context (network face_detector : Type)
        (forward : network -> tensor -> result emonet_output)
        (detect : face_detector -> ndarray -> result (list (list float)))
        (interpolate : ndarray -> Z -> result ndarray)
        (softmax : list float -> list float)
        (argmax : list float -> Z).

Local Abbreviation self_cleanup := (cleanup network face_detector).
Local Abbreviation self_predict :=
  (detector_predict network face_detector forward detect interpolate softmax
                    argmax).

(** [predict] does not return once the face detector attribute is gone. *)
Lemma detector_predict_without_face_detector self image :
  attr_face_detector _ _ self = None ->
  is_ok (self_predict self image) = false.
Proof.
  intros H. unfold detector_predict, predict. rewrite H.
  by destruct (cv2.COLOR_RGB2BGR image).
Qed.

(** X13. [cleanup] removes the model and the face detector and keeps the
    other attributes; it asks for the CUDA cache to be released exactly when
    the device is a GPU; a further [cleanup] leaves the object as it is; and
    after [cleanup], [predict] raises for every image. *)
Theorem cleanup_removes_model self calls :
  attr_model _ _ (self_cleanup self calls).1 = None
  /\ attr_face_detector _ _ (self_cleanup self calls).1 = None
  /\ attr_device _ _ (self_cleanup self calls).1 = attr_device _ _ self
  /\ attr_n_classes _ _ (self_cleanup self calls).1 = attr_n_classes _ _ self
  /\ attr_image_size _ _ (self_cleanup self calls).1
     = attr_image_size _ _ self
  /\ (self_cleanup self calls).2
     = match attr_device _ _ self with
       | cuda _ => S calls
       | cpu => calls
       end
  /\ (forall calls', (self_cleanup (self_cleanup self calls).1 calls').1
                     = (self_cleanup self calls).1)
  /\ (forall image,
        is_ok (self_predict (self_cleanup self calls).1 image) = false).
Proof.
  destruct self as [n s d m fd].
  assert (Hclean : (self_cleanup (DetectorAttrs _ _ n s d m fd) calls).1
                   = DetectorAttrs _ _ n s d None None).
  { unfold cleanup. destruct m, fd; reflexivity. }
  rewrite !Hclean. repeat split; try reflexivity.
  - unfold cleanup. destruct m, fd, d; reflexivity.
  - intros image. by apply detector_predict_without_face_detector.
Qed.

End CleanupFacts.

(** ** Startup and shutdown *)
Section LifespanFacts.
Context (weights network face_detector : Type)
        (package_dir : string)
        (path_exists : string -> bool)
        (torch_load : string -> result (list (string * weights)))
        (EmoNet : Z -> device -> result network)
        (load_state_dict : network -> gmap string weights -> result network)
        (eval_mode : network -> network)
        (SFDDetector : string -> result face_detector).

Local Abbreviation startup :=
  (lifespan_startup weights network face_detector package_dir path_exists
                    torch_load EmoNet load_state_dict eval_mode SFDDetector).
Local Abbreviation weights_path := (state_dict_path package_dir 8).
Local Abbreviation bind_weights_8 :=
  (bind_weights weights network EmoNet load_state_dict eval_mode 8).

(** X14. Startup of the application.  The device is the one GPU selection
    gives for the outcome of [nvidia-smi].  Startup succeeds exactly when
    [pretrained/emonet_8.pth] exists, the checkpoint loads, the weights bind
    and the face detector can be built for that device; the detector then
    stored in the application state has 8 classes, input size 256, that
    device and both objects, and [/health] reports that device and 8.
    When startup fails, the application state has no detector and no cache
    release is requested. *)
Theorem lifespan_startup_outcome nvidia_smi cudnn_benchmark calls :
  exists dev,
    _select_best_gpu nvidia_smi = Ok dev
    /\ ((path_exists weights_path = true
         /\ exists state_dict model detector,
             torch_load weights_path = Ok state_dict
             /\ bind_weights_8 dev state_dict = Ok model
             /\ SFDDetector (device_str dev) = Ok detector
             /\ startup nvidia_smi cudnn_benchmark calls
                = (Some (DetectorAttrs _ _ 8 256 dev (Some model)
                                       (Some detector)),
                   calls, Ok tt)
             /\ health_check _ _
                  (startup nvidia_smi cudnn_benchmark calls).1.1
                = Response {[ "status" := PStr "healthy";
                              "model_loaded" := PBool true;
                              "device" := PStr (device_str dev);
                              "n_classes" := PInt 8 ]})
        \/ (exists e,
              startup nvidia_smi cudnn_benchmark calls = (None, calls, Raise e)
              /\ (path_exists weights_path = false
                  \/ is_ok (torch_load weights_path) = false
                  \/ (exists state_dict,
                        torch_load weights_path = Ok state_dict
                        /\ is_ok (bind_weights_8 dev state_dict) = false)
                  \/ is_ok (SFDDetector (device_str dev)) = false))).
Proof.
  destruct (select_best_gpu_total nvidia_smi) as [dev Hdev].
  exists dev. split; [exact Hdev|].
  unfold lifespan_startup, EmotionDetector_8, __init__, _load_model,
    _load_face_detector.
  rewrite Hdev. simpl.
  destruct (path_exists weights_path) eqn:Hpath; simpl.
  2:{ right. eexists. split; [reflexivity|]. by left. }
  destruct (torch_load weights_path) as [state_dict|] eqn:Hload; simpl.
  2:{ right. eexists. split; [reflexivity|]. right. by left. }
  destruct (bind_weights_8 dev state_dict) as [model|] eqn:Hbind; simpl.
  2:{ right. eexists. split; [reflexivity|]. right. right. left.
      exists state_dict. by rewrite Hbind. }
  destruct (SFDDetector (device_str dev)) as [detector|] eqn:Hdet; simpl.
  2:{ right. eexists. split; [reflexivity|]. by repeat right. }
  left. split; [reflexivity|]. by exists state_dict, model, detector.
Qed.

(** Shutdown cleans the stored detector up: afterwards the application
    state still holds the detector object, without model and face detector,
    and the CUDA cache release has been requested once if the device is a
    GPU; without a detector, shutdown does nothing. *)
Lemma lifespan_shutdown_cleans app_state calls :
  match app_state with
  | Some detector =>
      exists cleaned,
        (lifespan_shutdown network face_detector app_state calls).1
        = Some cleaned
        /\ attr_model _ _ cleaned = None
        /\ attr_face_detector _ _ cleaned = None
        /\ attr_device _ _ cleaned = attr_device _ _ detector
        /\ (lifespan_shutdown network face_detector app_state calls).2
           = match attr_device _ _ detector with
             | cuda _ => S calls
             | cpu => calls
             end
  | None =>
      lifespan_shutdown network face_detector app_state calls = (None, calls)
  end.
Proof.
  destruct app_state as [[n s d m fd]|]; [|reflexivity].
  unfold lifespan_shutdown, lifespan_finally, cleanup. simpl.
  eexists. split; [reflexivity|].
  destruct m, fd, d; repeat split; reflexivity.
Qed.

End LifespanFacts.

Example lifespan_startup_cpu :
  MockServer.lifespan_startup ["/app/emonet/pretrained/emonet_8.pth"]
    (Raise (ExternalError "nvidia-smi: command not found")) false 0
  = (Some (DetectorAttrs unit unit 8 256 cpu (Some tt) (Some tt)), 0%nat,
     Ok tt).
Proof. vm_compute. reflexivity. Qed.

Example lifespan_startup_missing_weights :
  MockServer.lifespan_startup [] (Ok two_gpus_stdout) false 0
  = (None, 0%nat,
     Raise (FileNotFoundError
              "Model weights not found at /app/emonet/pretrained/emonet_8.pth")).
Proof. vm_compute. reflexivity. Qed.

(** ** The HTTP layer *)

Lemma prefix_empty (s : string) : String.prefix EmptyString s = true.
Proof. by destruct s. Qed.

Lemma prefix_cons_eq (a c : ascii) (sep s : string) :
  String.prefix (String a sep) (String c s)
  = if ascii_dec a c then String.prefix sep s else false.
Proof. reflexivity. Qed.

Lemma split_go_no_prefix sep cur c s :
  String.prefix sep (String c s) = false ->
  split_go sep 0 cur (String c s) = split_go sep 0 (c :: cur) s.
Proof. intros H. cbn [split_go]. by rewrite H. Qed.

Lemma split_go_prefix sep cur c s :
  String.prefix sep (String c s) = true ->
  split_go sep 0 cur (String c s)
  = string_of_list_ascii (rev cur)
      :: split_go sep (Nat.pred (String.length sep)) [] s.
Proof. intros H. cbn [split_go]. by rewrite H. Qed.

(** Up to the first comma: the field before it, then the fields of the
    rest. *)
Lemma split_go_comma cur head rest :
  contains "," head = false ->
  split_go "," 0 cur (head ++ "," ++ rest)
  = string_of_list_ascii (rev cur ++ list_ascii_of_string head)
      :: split_go "," 0 [] rest.
Proof.
  revert cur. induction head as [|c head IH]; intros cur H.
  - change (EmptyString ++ "," ++ rest) with (String ","%char rest).
    rewrite split_go_prefix.
    + simpl. by rewrite app_nil_r.
    + rewrite prefix_cons_eq. simpl. apply prefix_empty.
  - cbn [contains] in H. apply orb_false_iff in H as [Hp Hc].
    change (String c head ++ "," ++ rest)
      with (String c (head ++ "," ++ rest)).
    rewrite prefix_cons_eq in Hp.
    rewrite split_go_no_prefix.
    + rewrite IH by done. simpl. by rewrite <- app_assoc.
    + rewrite prefix_cons_eq.
      destruct (ascii_dec ","%char c); [|reflexivity].
      by rewrite prefix_empty in Hp.
Qed.

Lemma contains_comma_app head rest :
  contains "," (head ++ "," ++ rest) = true.
Proof.
  induction head as [|c head IH].
  - change (EmptyString ++ "," ++ rest) with (String ","%char rest).
    cbn [contains]. rewrite prefix_cons_eq. simpl. by rewrite prefix_empty.
  - change (String c head ++ "," ++ rest)
      with (String c (head ++ "," ++ rest)).
    cbn [contains]. rewrite IH. apply orb_true_r.
Qed.

Lemma strip_header_plain payload :
  contains "," payload = false -> strip_header payload = Ok payload.
Proof. intros H. unfold strip_header. by rewrite H. Qed.

Lemma strip_header_one_comma header payload :
  contains "," header = false -> contains "," payload = false ->
  strip_header (header ++ "," ++ payload) = Ok payload.
Proof.
  intros Hh Hp. unfold strip_header, split.
  rewrite contains_comma_app, split_go_comma by done.
  rewrite split_go_not_contains by done. unfold getitem. simpl.
  by rewrite string_of_list_ascii_of_string.
Qed.

Lemma strip_header_two_commas header payload rest :
  contains "," header = false -> contains "," payload = false ->
  strip_header (header ++ "," ++ payload ++ "," ++ rest) = Ok payload.
Proof.
  intros Hh Hp. unfold strip_header, split.
  rewrite contains_comma_app, split_go_comma by done.
  rewrite split_go_comma by done. unfold getitem. simpl.
  by rewrite string_of_list_ascii_of_string.
Qed.

Section ServerFacts.
Context (network face_detector pil_image : Type)
        (forward : network -> tensor -> result emonet_output)
        (detect : face_detector -> ndarray -> result (list (list float)))
        (interpolate : ndarray -> Z -> result ndarray)
        (softmax : list float -> list float)
        (argmax : list float -> Z)
        (external_is_ValueError : string -> bool)
        (str_other : exn -> string)
        (b64decode : string -> result (list Byte.byte))
        (Image_open : list Byte.byte -> result pil_image)
        (mode : pil_image -> string)
        (convert : pil_image -> string -> result pil_image)
        (np_array : pil_image -> result ndarray)
        (imdecode : list Byte.byte -> result (option ndarray)).

Local Abbreviation decode :=
  (decode_base64_image pil_image str_other b64decode Image_open mode convert
                       np_array).
Local Abbreviation decode_try :=
  (decode_base64_image_try pil_image b64decode Image_open mode convert
                           np_array).
Local Abbreviation from_base64 :=
  (detect_emotion_from_base64 network face_detector pil_image forward detect
     interpolate softmax argmax external_is_ValueError str_other b64decode
     Image_open mode convert np_array).
Local Abbreviation from_file :=
  (detect_emotion_from_file network face_detector forward detect interpolate
     softmax argmax external_is_ValueError str_other imdecode).
Local Abbreviation self_predict :=
  (detector_predict network face_detector forward detect interpolate softmax
                    argmax).
Local Abbreviation run :=
  (run_detector network face_detector forward detect interpolate softmax
                argmax).
Local Abbreviation error_of :=
  (fun e : exn =>
     if isinstance_ValueError external_is_ValueError e
     then @HTTPException EmotionResponse 400 (str_exn str_other e)
     else HTTPException 500 "Internal server error").

(** The response constructor accepts every dict [predict] returns. *)
Lemma make_response_accepts detector image r :
  self_predict detector image = Ok r -> exists resp, make_response r = Ok resp.
Proof.
  intros Hr.
  destruct (predict_inv _ _ _ _ _ _ _ _ _ _ Hr)
    as (image_bgr & faces & Hcv & Hdet & Hcase).
  destruct Hcase as [[_ ->] | Hcase]; [by eexists|].
  destruct Hcase as (face & rest & x1 & y1 & x2 & y2 & tail & face_crop
                     & -> & Hbox & Hcrop & Hcase).
  destruct Hcase as [[_ ->] | [_ Hinfer]]; [by eexists|].
  apply infer_inv in Hinfer
    as (image_tensor & output & probs & label & _ & _ & _ & _ & ->).
  eexists. unfold make_response, dict_getitem, dict_get. simplify_map_eq.
  reflexivity.
Qed.

(** From the detector on, for a present detector. *)
Lemma run_detector_outcome detector image :
  match self_predict detector image with
  | Ok r =>
      exists resp,
        make_response r = Ok resp
        /\ run (Some detector) image = Return resp
  | Raise e => run (Some detector) image = Throw (Exn e)
  end.
Proof.
  unfold run_detector.
  destruct (self_predict detector image) as [r|e] eqn:Hr; [|reflexivity].
  destruct (make_response_accepts _ _ _ Hr) as [resp Hresp].
  exists resp. split; [exact Hresp|]. simpl. by rewrite Hresp.
Qed.

Lemma from_base64_decoded app_state request :
  from_base64 app_state request
  = match decode request with
    | Ok image =>
        handle external_is_ValueError str_other (run app_state image)
    | Raise e => error_of e
    end.
Proof.
  unfold detect_emotion_from_base64.
  by destruct (decode request).
Qed.

Lemma from_file_decoded app_state ct contents bgr rgb :
  String.prefix "image/" ct = true ->
  imdecode contents = Ok (Some bgr) ->
  cv2_COLOR_BGR2RGB bgr = Ok rgb ->
  from_file app_state (Some ct) (Ok contents)
  = handle external_is_ValueError str_other (run app_state rgb).
Proof.
  intros Hct Him Hrgb. unfold detect_emotion_from_file. rewrite Hct.
  destruct (String.eqb ct EmptyString) eqn:E.
  { apply String.eqb_eq in E. subst. discriminate. }
  simpl. rewrite Him. simpl. by rewrite Hrgb.
Qed.

(** X15. The base64 endpoint with a detector in place.  A request that does
    not decode is answered 400 with a detail starting "Invalid base64
    image: ".  When the image decodes and [predict] returns a dict, the
    answer is the response built from it, whether or not a face was found.
    When [predict] raises, the answer is 400 with the exception's text for a
    ValueError, and otherwise 500 with the fixed detail "Internal server
    error". *)
Theorem detect_emotion_from_base64_outcome detector request :
  match decode_try request with
  | Raise e =>
      from_base64 (Some detector) request
      = HTTPException 400 ("Invalid base64 image: " ++ str_exn str_other e)
  | Ok image =>
      match self_predict detector image with
      | Ok r =>
          exists resp,
            make_response r = Ok resp
            /\ from_base64 (Some detector) request = Response resp
      | Raise e => from_base64 (Some detector) request = error_of e
      end
  end.
Proof.
  rewrite (from_base64_decoded (Some detector) request).
  unfold decode_base64_image.
  destruct (decode_try request) as [image|e]; [|reflexivity].
  pose proof (run_detector_outcome detector image) as Hrun.
  destruct (self_predict detector image) as [r|e].
  - destruct Hrun as (resp & Hresp & ->). by exists resp.
  - by rewrite Hrun.
Qed.

(** X16. Without a detector in the application state, [/health] answers 503
    "Model not initialized", but the two detection endpoints answer 500
    "Internal server error" for every image that decodes: the 503 raised
    inside their [try] block is caught by the last [except] clause. *)
Theorem no_detector_status request image content_type contents bgr rgb :
  decode request = Ok image ->
  String.prefix "image/" content_type = true ->
  imdecode contents = Ok (Some bgr) ->
  cv2_COLOR_BGR2RGB bgr = Ok rgb ->
  health_check network face_detector None
  = HTTPException 503 "Model not initialized"
  /\ from_base64 None request = HTTPException 500 "Internal server error"
  /\ from_file None (Some content_type) (Ok contents)
     = HTTPException 500 "Internal server error".
Proof.
  intros Hdecode Hct Him Hrgb. split; [reflexivity|]. split.
  - unfold detect_emotion_from_base64. by rewrite Hdecode.
  - by rewrite (from_file_decoded None content_type contents bgr rgb).
Qed.

(** X17. An upload whose declared content type is missing or does not start
    with "image/" is answered 400 "File must be an image", whatever its
    bytes are and whether or not the detector is there. *)
Theorem detect_emotion_from_file_content_type app_state content_type read :
  content_type = None
  \/ (exists ct, content_type = Some ct
                 /\ String.prefix "image/" ct = false) ->
  detect_emotion_from_file network face_detector forward detect interpolate
    softmax argmax external_is_ValueError str_other imdecode
    app_state content_type read
  = HTTPException 400 "File must be an image".
Proof.
  intros [-> | (ct & -> & Hct)]; unfold detect_emotion_from_file.
  - reflexivity.
  - rewrite Hct. by rewrite andb_false_r.
Qed.

(** X18. An upload with an image content type whose bytes the image decoder
    rejects (it returns None) is answered 400 "Failed to decode image",
    also when there is no detector. *)
Theorem detect_emotion_from_file_undecodable app_state ct contents :
  String.prefix "image/" ct = true ->
  imdecode contents = Ok None ->
  from_file app_state (Some ct) (Ok contents)
  = HTTPException 400 "Failed to decode image".
Proof.
  intros Hct Him. unfold detect_emotion_from_file. rewrite Hct.
  destruct (String.eqb ct EmptyString) eqn:E.
  { apply String.eqb_eq in E. subst. discriminate. }
  simpl. by rewrite Him.
Qed.

(** X19. An upload that decodes to a non-empty three-channel image: the
    face detector is given the decoded array itself; when [predict] returns
    a dict the answer is the response built from it; in particular an image
    in which the detector finds no face is answered with the no-face
    response, not with an error. *)
Theorem detect_emotion_from_file_decoded
    detector fd ct contents h w px :
  String.prefix "image/" ct = true ->
  imdecode contents = Ok (Some (Array3 h w 3 px)) ->
  Np.wf (Array3 h w 3 px) -> (0 < h)%nat -> (0 < w)%nat ->
  attr_face_detector _ _ detector = Some fd ->
  exists rgb,
    cv2_COLOR_BGR2RGB (Array3 h w 3 px) = Ok rgb
    /\ cv2.COLOR_RGB2BGR rgb = Ok (Array3 h w 3 px)
    /\ (forall r, self_predict detector rgb = Ok r ->
                  exists resp,
                    make_response r = Ok resp
                    /\ from_file (Some detector) (Some ct) (Ok contents)
                       = Response resp)
    /\ (detect fd (Array3 h w 3 px) = Ok [] ->
        from_file (Some detector) (Some ct) (Ok contents)
        = Response no_face_response).
Proof.
  intros Hct Him Hwf Hh Hw Hfd.
  destruct (COLOR_RGB2BGR_swapped h w px Hwf Hh Hw) as (Hto & _ & Hback).
  set (rgb := Array3 h w 3 (map (map cv2.swap_rb) px)) in *.
  pose proof (from_file_decoded (Some detector) ct contents _ rgb Hct Him Hto)
    as Hfile.
  exists rgb. split; [exact Hto|]. split; [exact Hback|]. split.
  - intros r Hr. pose proof (run_detector_outcome detector rgb) as Hrun.
    rewrite Hr in Hrun. destruct Hrun as (resp & Hresp & Hrun).
    exists resp. split; [exact Hresp|]. by rewrite Hfile, Hrun.
  - intros Hnone.
    assert (Hr : self_predict detector rgb = Ok NoFace).
    { unfold detector_predict, predict. rewrite Hback, Hfd. simpl.
      by rewrite Hnone. }
    rewrite Hfile. unfold run_detector. rewrite Hr. reflexivity.
Qed.

(** X20. Whatever the request and whatever the state of the application,
    the two detection endpoints answer with status 200, 400 or 500; in
    particular never with 503.  A 500 always carries the fixed detail
    "Internal server error". *)
Theorem detection_endpoints_status app_state request content_type read :
  (status_of (from_base64 app_state request) = 200
   \/ status_of (from_base64 app_state request) = 400
   \/ from_base64 app_state request
      = HTTPException 500 "Internal server error")
  /\ (status_of (from_file app_state content_type read) = 200
      \/ status_of (from_file app_state content_type read) = 400
      \/ from_file app_state content_type read
         = HTTPException 500 "Internal server error").
Proof.
  assert (Hhandle : forall body : attempt EmotionResponse,
             status_of (handle external_is_ValueError str_other body) = 200
             \/ status_of (handle external_is_ValueError str_other body) = 400
             \/ handle external_is_ValueError str_other body
                = HTTPException 500 "Internal server error").
  { intros [resp|[e|status detail]]; simpl; [by left| |by right; right].
    destruct (isinstance_ValueError external_is_ValueError e); simpl;
      [right; by left | right; by right]. }
  split.
  - unfold detect_emotion_from_base64. apply Hhandle.
  - unfold detect_emotion_from_file.
    destruct (negb _); [right; by left|]. apply Hhandle.
Qed.

(** X21. Data-URI headers.  A request text without comma is decoded as it
    is; for a text [header,payload] only the payload is decoded; and for a
    text with more commas only what stands between the first and the second
    comma is decoded, so the result is that of decoding that field alone. *)
Theorem decode_base64_image_header header payload rest :
  contains "," header = false ->
  contains "," payload = false ->
  strip_header payload = Ok payload
  /\ decode (header ++ "," ++ payload) = decode payload
  /\ decode (header ++ "," ++ payload ++ "," ++ rest) = decode payload.
Proof.
  intros Hh Hp.
  split; [by apply strip_header_plain|].
  unfold decode_base64_image, decode_base64_image_try.
  rewrite strip_header_one_comma, strip_header_two_commas,
    strip_header_plain by done.
  split; reflexivity.
Qed.

End ServerFacts.

(** ** The HTTP layer on concrete requests *)

Example base64_endpoint_examples :
  MockServer.detect_emotion_from_base64
    (Some (MockServer.detector [])) "data:image/png;base64,AAAA"
  = Response no_face_response
  /\ MockServer.detect_emotion_from_base64
       (Some (MockServer.detector [])) "AAA"
     = HTTPException 400 "Invalid base64 image: Incorrect padding"
  /\ MockServer.detect_emotion_from_base64
       (Some (MockServer.detector [[float32_of_int 1]])) "AAAA"
     = HTTPException 500 "Internal server error".
Proof. vm_compute. repeat split; reflexivity. Qed.

Lemma no_detector_status_witness :
  MockServer.detect_emotion_from_base64 None "AAAA"
  = HTTPException 500 "Internal server error"
  /\ MockServer.detect_emotion_from_file None (Some "image/png")
       (Ok [Byte.x89])
     = HTTPException 500 "Internal server error".
Proof.
  refine (proj2 (no_detector_status unit (list (list float)) ndarray
                   MockServer.forward MockServer.detect Mock.resize_nearest
                   Mock.uniform_softmax Mock.first_argmax
                   MockServer.no_ValueError MockServer.no_message
                   MockServer.b64decode MockServer.Image_open MockServer.mode
                   MockServer.convert MockServer.np_array MockServer.imdecode
                   "AAAA" _ "image/png" [Byte.x89] _ _ _ _ _ _)).
  - vm_compute. reflexivity.
  - reflexivity.
  - reflexivity.
  - vm_compute. reflexivity.
Defined.

Lemma detect_emotion_from_file_content_type_witness :
  MockServer.detect_emotion_from_file (Some (MockServer.detector []))
    (Some "text/plain") (Ok [Byte.x89])
  = HTTPException 400 "File must be an image".
Proof.
  apply (detect_emotion_from_file_content_type unit (list (list float))
           MockServer.forward MockServer.detect Mock.resize_nearest
           Mock.uniform_softmax Mock.first_argmax MockServer.no_ValueError
           MockServer.no_message MockServer.imdecode).
  right. exists "text/plain". split; reflexivity.
Defined.

Lemma detect_emotion_from_file_undecodable_witness :
  MockServer.detect_emotion_from_file None (Some "image/jpeg") (Ok [])
  = HTTPException 400 "Failed to decode image".
Proof.
  apply (detect_emotion_from_file_undecodable unit (list (list float))
           MockServer.forward MockServer.detect Mock.resize_nearest
           Mock.uniform_softmax Mock.first_argmax MockServer.no_ValueError
           MockServer.no_message MockServer.imdecode);
    reflexivity.
Defined.

Lemma detect_emotion_from_file_decoded_witness :
  MockServer.detect_emotion_from_file (Some (MockServer.detector []))
    (Some "image/png") (Ok [Byte.x89])
  = Response no_face_response.
Proof.
  destruct (detect_emotion_from_file_decoded unit (list (list float))
              MockServer.forward MockServer.detect Mock.resize_nearest
              Mock.uniform_softmax Mock.first_argmax
              MockServer.no_ValueError MockServer.no_message
              MockServer.imdecode (MockServer.detector []) []
              "image/png" [Byte.x89] 6 6
              (replicate 6 (replicate 6 [0; 0; 0])))
    as (rgb & _ & _ & _ & Hnone).
  - reflexivity.
  - reflexivity.
  - split; [reflexivity|]. repeat constructor.
  - lia.
  - lia.
  - reflexivity.
  - apply Hnone. reflexivity.
Defined.

Lemma decode_base64_image_header_witness :
  MockServer.decode_base64_image "data:image/png;base64,AAAA"
  = MockServer.decode_base64_image "AAAA".
Proof.
  refine (proj1 (proj2 (decode_base64_image_header ndarray
                          MockServer.no_message MockServer.b64decode
                          MockServer.Image_open MockServer.mode
                          MockServer.convert MockServer.np_array
                          "data:image/png;base64" "AAAA" EmptyString _ _))).
  - vm_compute. reflexivity.
  - vm_compute. reflexivity.
Defined.
